(** * Windows Security Log Analyzer: event normalization and collection

    A shallow embedding of [models.py] and [sources.py] and the properties
    of the normalization / collection pipeline.

    Python values are modelled as follows.
    - [str]: a Rocq [string]; a character is the code point of the same
      number, so the model covers the strings over U+0000..U+00FF.
    - [int]: [Z].
    - [Optional[T]]: [option T].
    - an exception that leaves a function: the [Raise] constructor of [exc].
    - [datetime]: the wall-clock fields as one count of microseconds, plus
      the UTC offset of an aware value ([None] for a naive one).
    - a raw event [dict]: [RawRecord] for the records the program's own
      sources build, [Wide.RawRecord] for a dict whose id and time values
      are of any type ([None], [bool], [int], [float], [str], [list],
      [dict]). *)

From Stdlib Require Import ZArith String Ascii List Lia Bool Sorted Permutation.
From stdpp Require Import base decidable option list sorting gmap strings.

Local Open Scope string_scope.
Local Open Scope list_scope.
Local Open Scope Z_scope.

#[local] Set Warnings "-clear-no-such-hyp,-register-all".

(** ** The fragment of Python's [str] used by the program *)

Module PyStr.

Definition code (c : ascii) : N := N_of_ascii c.

(** [str.isspace] on one character, as [str.strip] uses it. *)
Definition isspace (c : ascii) : bool :=
  let n := code c in
  ((9 <=? n) && (n <=? 13) || (28 <=? n) && (n <=? 31)
   || (n =? 32) || (n =? 133) || (n =? 160))%N.

(** The white space [int()] skips around a numeral: the C white space,
    and the non-ASCII white space it first rewrites to a blank. *)
Definition isspace_int (c : ascii) : bool :=
  let n := code c in
  ((9 <=? n) && (n <=? 13) || (n =? 32) || (n =? 133) || (n =? 160))%N.

(** The characters [str.lower] changes: A..Z and the capital letters of
    U+00C0..U+00DE; each maps to the code point 32 above it. *)
Definition isupper (c : ascii) : bool :=
  let n := code c in
  ((65 <=? n) && (n <=? 90)
   || (192 <=? n) && (n <=? 222) && negb (n =? 215))%N.

Definition lower_char (c : ascii) : ascii :=
  if isupper c then ascii_of_N (code c + 32) else c.

(** [s.lower()] *)
Fixpoint lower (s : string) : string :=
  match s with
  | EmptyString => EmptyString
  | String c r => String (lower_char c) (lower r)
  end.

Fixpoint lstrip_with (sp : ascii -> bool) (s : string) : string :=
  match s with
  | EmptyString => EmptyString
  | String c r => if sp c then lstrip_with sp r else s
  end.

Fixpoint rstrip_with (sp : ascii -> bool) (s : string) : string :=
  match s with
  | EmptyString => EmptyString
  | String c r =>
      match rstrip_with sp r with
      | EmptyString => if sp c then EmptyString else String c EmptyString
      | r' => String c r'
      end
  end.

Definition strip_with (sp : ascii -> bool) (s : string) : string :=
  rstrip_with sp (lstrip_with sp s).

(** [s.strip()] *)
Definition strip : string -> string := strip_with isspace.

(** [s.startswith(p)] *)
Fixpoint startswith (p s : string) : bool :=
  match p, s with
  | EmptyString, _ => true
  | String a p', String b s' => if Ascii.eqb a b then startswith p' s' else false
  | String _ _, EmptyString => false
  end.

(** [needle in s] *)
Fixpoint contains (needle s : string) : bool :=
  startswith needle s ||
  match s with
  | EmptyString => false
  | String _ r => contains needle r
  end.

(** [s.replace(old, new)] for a non-empty [old]: occurrences are taken
    left to right and do not overlap.  [skip] counts the characters of
    an occurrence that are still to be dropped. *)
Fixpoint replace_go (old new : string) (skip : nat) (s : string) : string :=
  match s with
  | EmptyString => EmptyString
  | String c r =>
      match skip with
      | S k => replace_go old new k r
      | O =>
          if startswith old s
          then new +:+ replace_go old new (Nat.pred (String.length old)) r
          else String c (replace_go old new O r)
      end
  end.

(** With an empty [old], Python puts [new] before every character and at
    the end. *)
Fixpoint intersperse (new s : string) : string :=
  match s with
  | EmptyString => new
  | String c r => new +:+ String c (intersperse new r)
  end.

Definition replace (old new s : string) : string :=
  match old with
  | EmptyString => intersperse new s
  | _ => replace_go old new O s
  end.

(** [s.split(sep)] for a separator of one character.  [cur] holds the
    current piece. *)
Fixpoint split_go (sep : ascii) (cur : string) (s : string) : list string :=
  match s with
  | EmptyString => [cur]
  | String c r =>
      if Ascii.eqb c sep then cur :: split_go sep EmptyString r
      else split_go sep (cur +:+ String c EmptyString) r
  end.

Definition split (sep : ascii) (s : string) : list string :=
  split_go sep EmptyString s.

Definition digit_value (c : ascii) : option Z :=
  let n := code c in
  if ((48 <=? n) && (n <=? 57))%N then Some (Z.of_N n - 48) else None.

(** The digits of a numeral: one or more decimal digits, single
    underscores allowed between two digits. *)
Fixpoint digits_go (acc : Z) (after_digit : bool) (s : string) : option Z :=
  match s with
  | EmptyString => if after_digit then Some acc else None
  | String c r =>
      match digit_value c with
      | Some d => digits_go (10 * acc + d) true r
      | None =>
          if Ascii.eqb c "_" then
            if after_digit then digits_go acc false r else None
          else None
      end
  end.

(** [int(s)] for a [str]: [None] stands for [ValueError].  The numeral is
    read whatever its length (CPython's optional limit on the number of
    digits is left out). *)
Definition int_of_str (s : string) : option Z :=
  match strip_with isspace_int s with
  | String "+" r => digits_go 0 false r
  | String "-" r => Z.opp <$> digits_go 0 false r
  | t => digits_go 0 false t
  end.

End PyStr.

(** ** Exceptions *)

Inductive exn : Type :=
| TypeError
| ValueError
| RuntimeError
| FileNotFoundError
| ParseError
| OSError
| OverflowError
| AttributeError.

(** The outcome of a call: a value, or an exception on its way to the
    caller. *)
Inductive exc (A : Type) : Type :=
| Ok (a : A)
| Raise (e : exn).
Arguments Ok {A} a.
Arguments Raise {A} e.

#[global] Instance exc_bind : MBind exc := fun A B f m =>
  match m with
  | Ok a => f a
  | Raise e => Raise e
  end.

#[global] Instance exc_ret : MRet exc := fun A a => Ok a.

#[global] Instance exn_eq_dec : EqDecision exn.
Proof. solve_decision. Defined.

(** ** [datetime] values and [list.sort] *)

(** [dt_wall]: the year..microsecond fields, counted in microseconds from
    1970-01-01T00:00:00 on the value's own clock.  [dt_utcoffset]: the UTC
    offset in microseconds of an aware value, [None] for a naive one. *)
Record datetime : Type := mk_datetime {
  dt_wall : Z;
  dt_utcoffset : option Z
}.

#[global] Instance datetime_eq_dec : EqDecision datetime.
Proof. solve_decision. Defined.

(** [a < b] on two datetimes: naive values compare by their fields, aware
    values by their instant, and Python refuses to order a naive value
    against an aware one. *)
Definition dt_lt (a b : datetime) : exc bool :=
  match dt_utcoffset a, dt_utcoffset b with
  | None, None => Ok (dt_wall a <? dt_wall b)
  | Some oa, Some ob => Ok (dt_wall a - oa <? dt_wall b - ob)
  | _, _ => Raise TypeError
  end.

(** [list.sort(key=..., reverse=True)].  The sort is specified by its
    result: it is stable, it compares keys with [<] only, and an exception
    of a comparison leaves the sort.  [reverse=True] reverses the list,
    sorts it in ascending order and reverses the result, which keeps equal
    keys in their original order. *)
Section ListSort.
Context {A K : Type}.
Variable lt : K -> K -> exc bool.
Variable key : A -> K.

Fixpoint sort_insert (x : A) (l : list A) : exc (list A) :=
  match l with
  | [] => Ok [x]
  | y :: l' =>
      b ← lt (key y) (key x);
      if b : bool then (r ← sort_insert x l'; Ok (y :: r)) else Ok (x :: l)
  end.

Fixpoint sort_ascending (l : list A) : exc (list A) :=
  match l with
  | [] => Ok []
  | x :: l' => s ← sort_ascending l'; sort_insert x s
  end.

Definition list_sort_reverse (l : list A) : exc (list A) :=
  r ← sort_ascending (reverse l); Ok (reverse r).
End ListSort.

(** The part of the [datetime] module the program calls.  [fromisoformat]
    raises [ValueError] only, written [None].  [local_epoch] is the local
    wall-clock reading at instant 0, which [datetime.fromtimestamp(0)]
    returns as a naive value. *)
Class PyDatetime : Type := {
  fromisoformat : string -> option datetime;
  local_epoch : Z
}.

Definition fromtimestamp0 `{PyDatetime} : datetime :=
  {| dt_wall := local_epoch; dt_utcoffset := None |}.

(** ** models.py *)

Record SecurityEvent : Type := mk_SecurityEvent {
  time_created : datetime;
  event_id : Z;
  level : string;
  provider : string;
  machine_name : string;
  message : string;
  category : string
}.

#[global] Instance SecurityEvent_eq_dec : EqDecision SecurityEvent.
Proof. solve_decision. Defined.

Record EventRule : Type := mk_EventRule {
  rule_category : string;
  rule_severity : string
}.

Definition EVENT_RULES : gmap Z EventRule :=
  list_to_map [
    (4624, mk_EventRule "Logon success" "normal");
    (4625, mk_EventRule "Logon failure" "critical");
    (4634, mk_EventRule "Logoff" "normal");
    (4647, mk_EventRule "Logoff" "normal");
    (4672, mk_EventRule "Privilege assigned" "normal");
    (4688, mk_EventRule "Process created" "suspicious");
    (4689, mk_EventRule "Process exited" "info");
    (4720, mk_EventRule "User account change" "suspicious");
    (4722, mk_EventRule "User account change" "suspicious");
    (4723, mk_EventRule "Password change attempt" "suspicious");
    (4724, mk_EventRule "Password change attempt" "suspicious");
    (4725, mk_EventRule "User account change" "suspicious");
    (4726, mk_EventRule "User account change" "suspicious");
    (4732, mk_EventRule "Group membership change" "suspicious");
    (4733, mk_EventRule "Group membership change" "suspicious");
    (4768, mk_EventRule "Kerberos authentication" "info");
    (4769, mk_EventRule "Kerberos authentication" "info");
    (4770, mk_EventRule "Kerberos authentication" "info");
    (4771, mk_EventRule "Kerberos authentication" "info");
    (4798, mk_EventRule "User enumeration" "suspicious");
    (4799, mk_EventRule "User enumeration" "suspicious")
  ].

Definition IMPORTANT_EVENT_IDS : gset Z := dom EVENT_RULES.

Definition categorize_event (event_id : Z) : string :=
  match EVENT_RULES !! event_id with
  | Some rule => rule_category rule
  | None => "Other"
  end.

(** [parse_time(value)] for [value: Optional[str]]. *)
Definition parse_time `{PyDatetime} (value : option string) : datetime :=
  match value with
  | None | Some EmptyString => fromtimestamp0
  | Some value =>
      match fromisoformat (PyStr.replace "Z" "+00:00" value) with
      | Some t => t
      | None => fromtimestamp0
      end
  end.

(** [int(part)] for a [str], as an outcome. *)
Definition int_str (s : string) : exc Z :=
  match PyStr.int_of_str s with
  | Some n => Ok n
  | None => Raise ValueError
  end.

(** The two list comprehensions' worth of [parse_event_ids]: the stripped,
    non-empty pieces of [value]. *)
Definition csv_parts (value : string) : list string :=
  PyStr.strip <$> filter (λ p, PyStr.strip p ≠ "") (PyStr.split "," value).

(** The loop of [parse_event_ids]: [result] is the list built so far. *)
Fixpoint parse_event_ids_loop (parts : list string) (result : list Z) : exc (list Z) :=
  match parts with
  | [] => Ok result
  | part :: parts' =>
      match int_str part with
      | Ok n => parse_event_ids_loop parts' (result ++ [n])
      | Raise ValueError => parse_event_ids_loop parts' result
      | Raise e => Raise e
      end
  end.

Definition parse_event_ids (value : option string) : exc (option (list Z)) :=
  match value with
  | None | Some EmptyString => Ok None
  | Some value =>
      result ← parse_event_ids_loop (csv_parts value) [];
      Ok (match result with [] => None | _ => Some result end)
  end.

Definition normalize_level_name (level : string) : string :=
  let value := PyStr.lower (PyStr.strip level) in
  if bool_decide (value ∈ ({["debug"; "verbose"; "trace"]} : gset string)) then "debug"
  else if bool_decide (value ∈ ({["information"; "info"]} : gset string)) then "info"
  else if bool_decide (value ∈ ({["warning"; "warn"]} : gset string)) then "warning"
  else if bool_decide (value ∈ ({["error"; "err"]} : gset string)) then "error"
  else if bool_decide (value ∈ ({["critical"; "fatal"]} : gset string)) then "critical"
  else "info".

(** ** sources.py *)

(** A value found in a raw record of the kind the two sources of the
    program produce: the live reader writes an [int] id and a [str] time,
    an exported record carries a text or a dict with a ["DateTime"] text.
    A dict is seen through the one key the program reads from it.  Records
    with values of other types are the subject of [Wide] below. *)
Inductive pyval : Type :=
| PNone
| PInt (n : Z)
| PStr (s : string)
| PDict (DateTime : option string).

(** A raw event dictionary, field by field: each field is what
    [raw.get(key)] returns, [None] included when the key is missing.  The
    four text fields hold a [str] or [None]. *)
Record RawRecord : Type := mk_RawRecord {
  Id : pyval;
  TimeCreated : pyval;
  LevelDisplayName : option string;
  ProviderName : option string;
  MachineName : option string;
  Message : option string
}.

(** [int(v)] *)
Definition py_int (v : pyval) : exc Z :=
  match v with
  | PInt n => Ok n
  | PStr s => int_str s
  | PNone | PDict _ => Raise TypeError
  end.

(** [str(v or "")] for a field that holds a [str] or [None]. *)
Definition str_or_empty (v : option string) : string :=
  match v with
  | Some s => s
  | None => ""
  end.

(** LF, and CR LF, as strings. *)
Definition LF : string := String (ascii_of_N 10) EmptyString.
Definition CRLF : string := String (ascii_of_N 13) LF.

Definition normalize_event `{PyDatetime} (raw : RawRecord) : exc (option SecurityEvent) :=
  match py_int (Id raw) with
  | Raise TypeError | Raise ValueError => Ok None
  | Raise e => Raise e
  | Ok event_id =>
      let time_created_value := TimeCreated raw in
      let time_created_raw :=
        match time_created_value with
        | PStr s => Some s
        | PDict d => d
        | _ => None
        end in
      let time_created := parse_time time_created_raw in
      let level := str_or_empty (LevelDisplayName raw) in
      let provider := str_or_empty (ProviderName raw) in
      let machine_name := str_or_empty (MachineName raw) in
      let message :=
        PyStr.replace LF " " (PyStr.replace CRLF " " (str_or_empty (Message raw))) in
      let category := categorize_event event_id in
      Ok (Some (mk_SecurityEvent time_created event_id level provider
                  machine_name message category))
  end.

(** An [Event] element of the demo document: its children as (tag, text)
    pairs in document order. *)
Definition Element : Type := list (string * string).

(** [element.findtext(tag)]: the text of the first child with that tag. *)
Definition findtext (element : Element) (tag : string) : option string :=
  snd <$> find (λ child, String.eqb (fst child) tag) element.

(** What the program asks of the machine it runs on: the platform test,
    the live log reader, and [ET.parse(path).getroot().findall("Event")]. *)
Record Host : Type := mk_Host {
  is_windows : bool;
  get_raw_events : string -> Z -> exc (list RawRecord);
  parse_events : string -> exc (list Element)
}.

(** [ids_filter] as [collect_events] sets it. *)
(** The truth value of [event_ids: Optional[Sequence[int]]]. *)
Definition ids_given (event_ids : option (list Z)) : bool :=
  match event_ids with
  | Some (_ :: _) => true
  | _ => false
  end.

(** [ids_filter] as [collect_events] sets it. *)
Definition ids_filter_of (important_only : bool) (event_ids : option (list Z))
  : option (gset Z) :=
  if important_only && ids_given event_ids then Some (list_to_set (default [] event_ids))
  else if important_only then Some IMPORTANT_EVENT_IDS
  else None.

Definition SYSTEM_LOGON_SIGNATURE : string := "s-1-5-18 system nt authority".

(** The body of the [for raw in raw_events] loop; [events] is the list
    built so far. *)
Fixpoint collect_loop `{PyDatetime} (hide_system_logons : bool)
    (ids_filter : option (gset Z)) (raw_events : list RawRecord)
    (events : list SecurityEvent) : exc (list SecurityEvent) :=
  match raw_events with
  | [] => Ok events
  | raw :: rest =>
      normalized ← normalize_event raw;
      match normalized with
      | None => collect_loop hide_system_logons ids_filter rest events
      | Some normalized =>
          if hide_system_logons && (event_id normalized =? 4624)
             && PyStr.contains SYSTEM_LOGON_SIGNATURE (PyStr.lower (message normalized))
          then collect_loop hide_system_logons ids_filter rest events
          else
            match ids_filter with
            | Some ids =>
                if bool_decide (event_id normalized ∉ ids)
                then collect_loop hide_system_logons ids_filter rest events
                else collect_loop hide_system_logons ids_filter rest (events ++ [normalized])
            | None => collect_loop hide_system_logons ids_filter rest (events ++ [normalized])
            end
      end
  end.

Definition collect_events `{PyDatetime} (h : Host) (log_name : string) (max_events : Z)
    (important_only : bool) (event_ids : option (list Z))
    (hide_system_logons : bool) : exc (list SecurityEvent) :=
  if negb (is_windows h) then Raise RuntimeError
  else
    let ids_filter := ids_filter_of important_only event_ids in
    raw_events ← get_raw_events h log_name max_events;
    events ← collect_loop hide_system_logons ids_filter raw_events [];
    list_sort_reverse dt_lt time_created events.

(** The loop of [load_events_from_demo_xml]. *)
Fixpoint demo_loop `{PyDatetime} (elements : list Element)
    (events : list SecurityEvent) : exc (list SecurityEvent) :=
  match elements with
  | [] => Ok events
  | element :: rest =>
      let time_created_text := findtext element "TimeCreated" in
      let event_id_text := findtext element "Id" in
      let level := str_or_empty (findtext element "Level") in
      let provider := str_or_empty (findtext element "Provider") in
      let machine_name := str_or_empty (findtext element "MachineName") in
      let message := str_or_empty (findtext element "Message") in
      match
        match event_id_text with
        | Some t =>
            match int_str t with
            | Ok n => Ok (Some n)
            | Raise ValueError => Ok None
            | Raise e => Raise e
            end
        | None => Ok None
        end
      with
      | Raise e => Raise e
      | Ok None => demo_loop rest events
      | Ok (Some event_id) =>
          let time_created := parse_time time_created_text in
          let category := categorize_event event_id in
          demo_loop rest
            (events ++ [mk_SecurityEvent time_created event_id level provider
                          machine_name message category])
      end
  end.

Definition load_events_from_demo_xml `{PyDatetime} (h : Host) (path : string)
  : exc (list SecurityEvent) :=
  elements ← parse_events h path;
  events ← demo_loop elements [];
  list_sort_reverse dt_lt time_created events.

(** ** A reference [datetime] library

    [iso_seconds] reads the texts [YYYY-MM-DD], [YYYY-MM-DD?HH:MM:SS] and
    [YYYY-MM-DD?HH:MM:SS±HH:MM] ([?] is any one character), which every
    CPython release reads the same way; it refuses every other text.  The
    general results below hold for every library; this one serves the
    worked examples. *)

Module RefDatetime.

Fixpoint take_digits (n : nat) (acc : Z) (s : string) : option (Z * string) :=
  match n with
  | O => Some (acc, s)
  | S n' =>
      match s with
      | String c r => d ← PyStr.digit_value c; take_digits n' (10 * acc + d) r
      | EmptyString => None
      end
  end.

Definition expect (c : ascii) (s : string) : option string :=
  match s with
  | String c' r => if Ascii.eqb c c' then Some r else None
  | EmptyString => None
  end.

Definition is_leap (y : Z) : bool :=
  (y mod 4 =? 0) && (negb (y mod 100 =? 0) || (y mod 400 =? 0)).

Definition days_in_month (y m : Z) : Z :=
  if m =? 2 then (if is_leap y then 29 else 28)
  else if (m =? 4) || (m =? 6) || (m =? 9) || (m =? 11) then 30
  else 31.

(** Days from 1970-01-01 to the given civil date. *)
Definition days_from_civil (y m d : Z) : Z :=
  let y' := if m <=? 2 then y - 1 else y in
  let era := y' / 400 in
  let yoe := y' - era * 400 in
  let mp := if m <=? 2 then m + 9 else m - 3 in
  let doy := (153 * mp + 2) / 5 + d - 1 in
  let doe := yoe * 365 + yoe / 4 - yoe / 100 + doy in
  era * 146097 + doe - 719468.

Definition microseconds (days hh mi ss : Z) : Z :=
  (((days * 24 + hh) * 60 + mi) * 60 + ss) * 1000000.

Definition iso_date (s : string) : option (Z * string) :=
  '(y, s) ← take_digits 4 0 s;
  s ← expect "-" s;
  '(m, s) ← take_digits 2 0 s;
  s ← expect "-" s;
  '(d, s) ← take_digits 2 0 s;
  if (1 <=? y) && (1 <=? m) && (m <=? 12) && (1 <=? d) && (d <=? days_in_month y m)
  then Some (days_from_civil y m d, s) else None.

Definition iso_clock (s : string) : option (Z * string) :=
  '(hh, s) ← take_digits 2 0 s;
  s ← expect ":" s;
  '(mi, s) ← take_digits 2 0 s;
  s ← expect ":" s;
  '(ss, s) ← take_digits 2 0 s;
  if (hh <? 24) && (mi <? 60) && (ss <? 60)
  then Some (microseconds 0 hh mi ss, s) else None.

Definition iso_offset (s : string) : option Z :=
  match s with
  | String sign r =>
      '(hh, r) ← take_digits 2 0 r;
      r ← expect ":" r;
      '(mi, r) ← take_digits 2 0 r;
      if (hh <? 24) && (mi <? 60) && String.eqb r "" then
        if Ascii.eqb sign "+" then Some (microseconds 0 hh mi 0)
        else if Ascii.eqb sign "-" then Some (- microseconds 0 hh mi 0)
        else None
      else None
  | EmptyString => None
  end.

Definition iso_seconds (s : string) : option datetime :=
  '(days, s) ← iso_date s;
  match s with
  | EmptyString => Some (mk_datetime (microseconds days 0 0 0) None)
  | String _ s =>
      '(clock, s) ← iso_clock s;
      match s with
      | EmptyString => Some (mk_datetime (microseconds days 0 0 0 + clock) None)
      | _ => off ← iso_offset s;
             Some (mk_datetime (microseconds days 0 0 0 + clock) (Some off))
      end
  end.

End RefDatetime.

(** The reference library on a machine whose local zone is UTC. *)
#[global] Instance reference_datetime : PyDatetime := {|
  fromisoformat := RefDatetime.iso_seconds;
  local_epoch := 0
|}.

(** ** Notions the statements use *)

(** [s] contains [needle] when case is ignored: some piece of [s] and
    [needle] have the same lower-case form. *)
Definition contains_ci (needle s : string) : Prop :=
  ∃ pre mid post, s = pre +:+ mid +:+ post ∧ PyStr.lower mid = PyStr.lower needle.

(** [a == b] on two datetimes. *)
Definition dt_eq (a b : datetime) : bool :=
  match dt_utcoffset a, dt_utcoffset b with
  | None, None => dt_wall a =? dt_wall b
  | Some oa, Some ob => dt_wall a - oa =? dt_wall b - ob
  | _, _ => false
  end.

Definition aware (d : datetime) : bool :=
  match dt_utcoffset d with Some _ => true | None => false end.

(** The instant of an aware value, the wall-clock reading of a naive one. *)
Definition dt_point (d : datetime) : Z :=
  match dt_utcoffset d with
  | Some o => dt_wall d - o
  | None => dt_wall d
  end.

(** The keys of [l] are all naive, or all aware. *)
Definition uniform {A : Type} (key : A → datetime) (l : list A) : Prop :=
  ∀ a b, a ∈ l → b ∈ l → aware (key a) = aware (key b).

(** All the time stamps of [l] are naive, or all are aware. *)
Definition one_kind (l : list SecurityEvent) : Prop := uniform time_created l.

(** Most recent first: no event is earlier than one that follows it. *)
Definition sorted_descending (l : list SecurityEvent) : Prop :=
  StronglySorted (λ a b, dt_lt (time_created a) (time_created b) = Ok false) l.

(** [l'] keeps the events of each time stamp in the order they have in
    [l]. *)
Definition same_order_on_ties (l l' : list SecurityEvent) : Prop :=
  ∀ t, filter (λ e, dt_eq (time_created e) t = true) l'
       = filter (λ e, dt_eq (time_created e) t = true) l.

(** The events the records normalize to, in retrieval order. *)
Definition normalized_events `{PyDatetime} (raw_events : list RawRecord)
  : list SecurityEvent :=
  omap (λ raw, match normalize_event raw with Ok r => r | Raise _ => None end)
       raw_events.

(** The suppression rule and the ID filter, on one event. *)
Definition is_system_logon (e : SecurityEvent) : Prop :=
  event_id e = 4624 ∧ contains_ci SYSTEM_LOGON_SIGNATURE (message e).

Definition passes_ids (ids_filter : option (gset Z)) (e : SecurityEvent) : Prop :=
  ∀ ids, ids_filter = Some ids → event_id e ∈ ids.

(** The test the loop of [collect_events] applies before [append]. *)
Definition kept (hide_system_logons : bool) (ids_filter : option (gset Z))
    (e : SecurityEvent) : bool :=
  negb (hide_system_logons && (event_id e =? 4624)
        && PyStr.contains SYSTEM_LOGON_SIGNATURE (PyStr.lower (message e)))
  && match ids_filter with
     | Some ids => bool_decide (event_id e ∈ ids)
     | None => true
     end.

Definition survivors `{PyDatetime} (hide_system_logons : bool)
    (ids_filter : option (gset Z)) (raw_events : list RawRecord)
  : list SecurityEvent :=
  filter (λ e, kept hide_system_logons ids_filter e = true)
         (normalized_events raw_events).

(** The event [normalize_event] builds once the id is read. *)
Definition event_of `{PyDatetime} (raw : RawRecord) (event_id : Z) : SecurityEvent :=
  mk_SecurityEvent
    (parse_time match TimeCreated raw with
                | PStr s => Some s
                | PDict d => d
                | _ => None
                end)
    event_id
    (str_or_empty (LevelDisplayName raw))
    (str_or_empty (ProviderName raw))
    (str_or_empty (MachineName raw))
    (PyStr.replace LF " " (PyStr.replace CRLF " " (str_or_empty (Message raw))))
    (categorize_event event_id).

(** The event the demo loader builds from one element, if any. *)
Definition demo_event `{PyDatetime} (element : Element) : option SecurityEvent :=
  event_id_text ← findtext element "Id";
  event_id ← PyStr.int_of_str event_id_text;
  Some (mk_SecurityEvent
          (parse_time (findtext element "TimeCreated"))
          event_id
          (str_or_empty (findtext element "Level"))
          (str_or_empty (findtext element "Provider"))
          (str_or_empty (findtext element "MachineName"))
          (str_or_empty (findtext element "Message"))
          (categorize_event event_id)).

(** The ID filter in words: the explicit ids when there are some, the keys
    of the rule table otherwise, and no filter unless [important_only]. *)
Definition id_allowed (important_only : bool) (explicit_ids : option (list Z))
    (id : Z) : Prop :=
  if important_only then
    match explicit_ids with
    | Some (x :: ids) => id ∈ x :: ids
    | _ => is_Some (EVENT_RULES !! id)
    end
  else True.

(** The synonym sets of the level normalizer, as the specification lists
    them. *)
Definition LEVEL_SYNONYMS : list (string * string) :=
  [ ("debug", "debug"); ("verbose", "debug"); ("trace", "debug");
    ("information", "info"); ("info", "info");
    ("warning", "warning"); ("warn", "warning");
    ("error", "error"); ("err", "error");
    ("critical", "critical"); ("fatal", "critical") ].

(** The level normalizer in the specification's words: lower-case, trim,
    look the result up, default to ["info"]. *)
Definition normalize_level_spec (raw : string) : string :=
  match find (λ p, String.eqb (fst p) (PyStr.strip (PyStr.lower raw))) LEVEL_SYNONYMS with
  | Some p => snd p
  | None => "info"
  end.

Definition CANONICAL_LEVELS : list string :=
  ["debug"; "info"; "warning"; "error"; "critical"].

(** [parse_event_ids] in words: split on commas, trim, drop the empty
    tokens, keep the tokens that read as integers. *)
Definition id_tokens (value : string) : list string :=
  filter (λ p, p ≠ "") (PyStr.strip <$> PyStr.split "," value).

Definition parse_event_ids_spec (value : option string) : option (list Z) :=
  match value with
  | None => None
  | Some value =>
      match omap PyStr.int_of_str (id_tokens value) with
      | [] => None
      | ids => Some ids
      end
  end.

(** The message with every CR LF pair, and every other LF, turned into one
    blank. *)
Fixpoint collapse_newlines (s : string) : string :=
  match s with
  | EmptyString => EmptyString
  | String c r =>
      if Ascii.eqb c (ascii_of_N 10) then String " " (collapse_newlines r)
      else if Ascii.eqb c (ascii_of_N 13) then
        match r with
        | String c' r' =>
            if Ascii.eqb c' (ascii_of_N 10) then String " " (collapse_newlines r')
            else String c (collapse_newlines r)
        | EmptyString => String c EmptyString
        end
      else String c (collapse_newlines r)
  end.

(** A host for worked examples: Windows, a log that holds [raw_events], a
    demo document that holds [elements]. *)
Definition sample_host (raw_events : list RawRecord) (elements : list Element) : Host :=
  {| is_windows := true;
     get_raw_events := λ _ _, Ok raw_events;
     parse_events := λ _, Ok elements |}.

(** ** Data of the worked examples *)

Definition raw_event (id : pyval) (time : pyval) (msg : option string) : RawRecord :=
  {| Id := id; TimeCreated := time; LevelDisplayName := Some "Information";
     ProviderName := Some "Microsoft-Windows-Security-Auditing";
     MachineName := Some "WS01"; Message := msg |}.

(** A logon of Local System, with the message the live reader builds by
    joining the inserts of the record with blanks. *)
Definition raw_system_logon : RawRecord :=
  raw_event (PInt 4624) (PStr "2024-03-01T10:00:00")
            (Some "S-1-5-18 SYSTEM NT AUTHORITY 0x3e7 5").

(** A logon whose message names Local System as [NT AUTHORITY\SYSTEM]. *)
Definition raw_domain_style_logon : RawRecord :=
  raw_event (PInt 4624) (PStr "2024-03-01T09:00:00")
            (Some "S-1-5-18 NT AUTHORITY\SYSTEM").

Definition raw_process : RawRecord :=
  raw_event (PInt 4688) (PStr "2024-03-01T11:00:00") (Some "cmd.exe").

Definition raw_logon : RawRecord :=
  raw_event (PInt 4624) (PStr "2024-03-01T10:00:00") (Some "alice WS01").

Definition raw_late_logon : RawRecord :=
  raw_event (PStr " 4624 ") (PDict (Some "2024-03-01T10:00:00")) (Some "bob WS01").

Definition raw_failure : RawRecord :=
  raw_event (PInt 4625) (PStr "2024-03-01T12:00:00") (Some "mallory WS01").

Definition raw_utc : RawRecord :=
  raw_event (PInt 4624) (PStr "2024-01-01T00:00:00Z") (Some "alice WS01").

Definition raw_garbled_time : RawRecord :=
  raw_event (PInt 4625) (PStr "not a timestamp") (Some "mallory WS01").

Definition sample_event (wall : Z) (id : Z) (msg cat : string) : SecurityEvent :=
  {| time_created := mk_datetime wall None; event_id := id; level := "Information";
     provider := "Microsoft-Windows-Security-Auditing"; machine_name := "WS01";
     message := msg; category := cat |}.

Definition ev_system_logon : SecurityEvent :=
  sample_event 1709287200000000 4624 "S-1-5-18 SYSTEM NT AUTHORITY 0x3e7 5" "Logon success".
Definition ev_domain_style_logon : SecurityEvent :=
  sample_event 1709283600000000 4624 "S-1-5-18 NT AUTHORITY\SYSTEM" "Logon success".
Definition ev_process : SecurityEvent :=
  sample_event 1709290800000000 4688 "cmd.exe" "Process created".
Definition ev_logon : SecurityEvent :=
  sample_event 1709287200000000 4624 "alice WS01" "Logon success".
Definition ev_late_logon : SecurityEvent :=
  sample_event 1709287200000000 4624 "bob WS01" "Logon success".

Definition ev_failure : SecurityEvent :=
  sample_event 1709294400000000 4625 "mallory WS01" "Logon failure".

Definition ev_utc : SecurityEvent :=
  {| time_created := mk_datetime 1704067200000000 (Some 0); event_id := 4624;
     level := "Information"; provider := "Microsoft-Windows-Security-Auditing";
     machine_name := "WS01"; message := "alice WS01"; category := "Logon success" |}.

Definition ev_garbled_time : SecurityEvent :=
  sample_event 0 4625 "mallory WS01" "Logon failure".

Definition ev_two_lines : SecurityEvent :=
  {| time_created := mk_datetime 1709287200000000 (Some 0); event_id := 4624;
     level := ""; provider := ""; machine_name := "";
     message := "first line" +:+ LF +:+ "second line"; category := "Logon success" |}.

(** A demo element whose message runs over two lines, and one with no
    time stamp. *)
Definition demo_two_lines : Element :=
  [ ("TimeCreated", "2024-03-01T10:00:00Z"); ("Id", "4624");
    ("Message", "first line" +:+ LF +:+ "second line") ].

Definition demo_no_time : Element := [ ("Id", "4688"); ("Message", "cmd.exe") ].

(** ** The rest of models.py, app.py and presentation.py *)

(** The loop of [parse_levels]: [result] is the set built so far. *)
Fixpoint parse_levels_loop (parts : list string) (result : gset string) : gset string :=
  match parts with
  | [] => result
  | part :: parts' =>
      let normalized := normalize_level_name part in
      parse_levels_loop parts' (result ∪ {[normalized]})
  end.

Definition parse_levels (value : option string) : option (gset string) :=
  match value with
  | None | Some EmptyString => None
  | Some value =>
      let result := parse_levels_loop (csv_parts value) ∅ in
      if decide (result = ∅) then None else Some result
  end.

(** The loop of [filter_events_by_levels]; [filtered] is the list built so
    far. *)
Fixpoint filter_levels_loop (allowed : gset string) (events filtered : list SecurityEvent)
  : list SecurityEvent :=
  match events with
  | [] => filtered
  | event :: rest =>
      let normalized := normalize_level_name (level event) in
      if bool_decide (normalized ∈ allowed)
      then filter_levels_loop allowed rest (filtered ++ [event])
      else filter_levels_loop allowed rest filtered
  end.

(** [filter_events_by_levels(events, levels)]: [not levels] holds for
    [None] and for the empty set. *)
Definition filter_events_by_levels (events : list SecurityEvent)
    (levels : option (gset string)) : list SecurityEvent :=
  match levels with
  | None => events
  | Some allowed =>
      if decide (allowed = ∅) then events
      else filter_levels_loop allowed events []
  end.

(** [s[:n]] for [n >= 0]. *)
Fixpoint str_take (n : nat) (s : string) : string :=
  match n, s with
  | S n', String c r => String c (str_take n' r)
  | _, _ => EmptyString
  end.

(** [s[:stop]]: a negative [stop] counts from the end, and the bound is
    clipped to the string. *)
Definition py_slice_to (stop : Z) (s : string) : string :=
  let n := Z.of_nat (String.length s) in
  str_take (Z.to_nat (if stop <? 0 then n + stop else stop)) s.

Definition truncate (text : string) (max_length : Z) : string :=
  if Z.of_nat (String.length text) <=? max_length then text
  else py_slice_to (max_length - 3) text +:+ "...".

Definition color_for_event (event : SecurityEvent) (use_color : bool) : string :=
  if negb use_color then ""
  else
    let level := normalize_level_name (level event) in
    if String.eqb level "debug" then "bright_magenta"
    else if String.eqb level "info" then "bright_cyan"
    else if String.eqb level "warning" then "bright_yellow"
    else if String.eqb level "error" then "bright_red"
    else if String.eqb level "critical" then "bright_red"
    else "".

(** ** The live reader, [get_raw_events] *)

Module Live.

(** A record as [win32evtlog.ReadEventLog] returns it, through the
    attributes the reader uses; [TimeGenerated] holds the text
    [record.TimeGenerated.isoformat()]. *)
Record EventLogRecord : Type := mk_EventLogRecord {
  EventID : Z;
  EventType : Z;
  SourceName : option string;
  ComputerName : option string;
  StringInserts : option (list string);
  TimeGenerated : string
}.

(** The machine as the reader sees it: the platform, whether [pywin32] was
    imported, the five constants of [win32con], and [OpenEventLog], which
    raises or gives the outcomes of the successive calls of [ReadEventLog]
    on the handle (after the last one the log returns the empty list). *)
Record Win32 : Type := mk_Win32 {
  on_windows : bool;
  pywin32 : bool;
  EVENTLOG_ERROR_TYPE : Z;
  EVENTLOG_WARNING_TYPE : Z;
  EVENTLOG_INFORMATION_TYPE : Z;
  EVENTLOG_AUDIT_FAILURE : Z;
  EVENTLOG_AUDIT_SUCCESS : Z;
  OpenEventLog : string -> exc (list (exc (list EventLogRecord)))
}.

(** [sep.join(parts)] *)
Fixpoint join (sep : string) (parts : list string) : string :=
  match parts with
  | [] => ""
  | [p] => p
  | p :: rest => p +:+ sep +:+ join sep rest
  end.

Definition level_of (w : Win32) (level_type : Z) : string :=
  if level_type =? EVENTLOG_ERROR_TYPE w then "Error"
  else if level_type =? EVENTLOG_WARNING_TYPE w then "Warning"
  else if level_type =? EVENTLOG_INFORMATION_TYPE w then "Information"
  else if level_type =? EVENTLOG_AUDIT_FAILURE w then "Warning"
  else if level_type =? EVENTLOG_AUDIT_SUCCESS w then "Information"
  else "Information".

(** The dictionary the reader appends for one record. *)
Definition raw_of_record (w : Win32) (record : EventLogRecord) : RawRecord :=
  let event_id := Z.land (EventID record) 65535 in
  let level := level_of w (EventType record) in
  let provider := default "" (SourceName record) in
  let machine_name := default "" (ComputerName record) in
  let inserts := default [] (StringInserts record) in
  let message := join " " inserts in
  let time_created := TimeGenerated record in
  {| Id := PInt event_id;
     TimeCreated := PStr time_created;
     LevelDisplayName := Some level;
     ProviderName := Some provider;
     MachineName := Some machine_name;
     Message := Some message |}.

(** The [for record in records] loop: the events and the count after it. *)
Fixpoint for_records (w : Win32) (max_events : Z) (records : list EventLogRecord)
    (events : list RawRecord) (read_total : Z) : list RawRecord * Z :=
  match records with
  | [] => (events, read_total)
  | record :: rest =>
      let events := events ++ [raw_of_record w record] in
      let read_total := read_total + 1 in
      if read_total >=? max_events then (events, read_total)
      else for_records w max_events rest events read_total
  end.

(** The [while read_total < max_events] loop over the calls of
    [ReadEventLog]. *)
Fixpoint while_reading (w : Win32) (max_events : Z)
    (reads : list (exc (list EventLogRecord)))
    (events : list RawRecord) (read_total : Z) : exc (list RawRecord) :=
  if read_total <? max_events then
    match reads with
    | [] => Ok events
    | Raise e :: _ => Raise e
    | Ok [] :: _ => Ok events
    | Ok records :: reads' =>
        let '(events, read_total) := for_records w max_events records events read_total in
        while_reading w max_events reads' events read_total
    end
  else Ok events.

Definition get_raw_events (w : Win32) (log_name : string) (max_events : Z)
  : exc (list RawRecord) :=
  if negb (on_windows w) then Raise RuntimeError
  else if negb (pywin32 w) then Raise RuntimeError
  else
    reads ← OpenEventLog w log_name;
    while_reading w max_events reads [] 0.

(** The records the reader can reach: those of the calls before the first
    empty answer. *)
Fixpoint reachable (batches : list (list EventLogRecord)) : list EventLogRecord :=
  match batches with
  | [] => []
  | [] :: _ => []
  | records :: rest => records ++ reachable rest
  end.

(** The answers of the calls of [ReadEventLog] before the first one that
    raises. *)
Fixpoint answered (reads : list (exc (list EventLogRecord))) : list (list EventLogRecord) :=
  match reads with
  | Ok records :: rest => records :: answered rest
  | _ => []
  end.

End Live.

(** The host the live reader makes; [elements] stands for the demo file. *)
Definition live_host (w : Live.Win32) (elements : string -> exc (list Element)) : Host :=
  {| is_windows := Live.on_windows w;
     get_raw_events := Live.get_raw_events w;
     parse_events := elements |}.

(** The raw record that carries the fields of a demo element. *)
Definition raw_of_element (element : Element) : RawRecord :=
  {| Id := match findtext element "Id" with Some t => PStr t | None => PNone end;
     TimeCreated := match findtext element "TimeCreated" with
                    | Some t => PStr t
                    | None => PNone
                    end;
     LevelDisplayName := findtext element "Level";
     ProviderName := findtext element "Provider";
     MachineName := findtext element "MachineName";
     Message := findtext element "Message" |}.

(** [e] with the line feeds of its message turned into blanks. *)
Definition with_collapsed_message (e : SecurityEvent) : SecurityEvent :=
  {| time_created := time_created e; event_id := event_id e; level := level e;
     provider := provider e; machine_name := machine_name e;
     message := collapse_newlines (message e); category := category e |}.

(** ** More data for worked examples *)

(** A Windows machine with [pywin32], the type codes of [win32con], and a
    log that gives [reads]. *)
Definition sample_win32 (reads : list (exc (list Live.EventLogRecord))) : Live.Win32 :=
  {| Live.on_windows := true; Live.pywin32 := true;
     Live.EVENTLOG_ERROR_TYPE := 1; Live.EVENTLOG_WARNING_TYPE := 2;
     Live.EVENTLOG_INFORMATION_TYPE := 4; Live.EVENTLOG_AUDIT_FAILURE := 16;
     Live.EVENTLOG_AUDIT_SUCCESS := 8;
     Live.OpenEventLog := λ _, Ok reads |}.

Definition record_failure : Live.EventLogRecord :=
  {| Live.EventID := 4625; Live.EventType := 16;
     Live.SourceName := Some "Microsoft-Windows-Security-Auditing";
     Live.ComputerName := Some "WS01";
     Live.StringInserts := Some ["mallory"; "WS01"];
     Live.TimeGenerated := "2024-03-01T12:00:00" |}.

Definition record_system_logon : Live.EventLogRecord :=
  {| Live.EventID := 4624; Live.EventType := 8;
     Live.SourceName := Some "Microsoft-Windows-Security-Auditing";
     Live.ComputerName := Some "WS01";
     Live.StringInserts := Some ["S-1-5-18"; "SYSTEM"; "NT AUTHORITY"; "0x3e7"; "5"];
     Live.TimeGenerated := "2024-03-01T10:00:00" |}.

Definition record_service : Live.EventLogRecord :=
  {| Live.EventID := 1073748860; Live.EventType := 4;
     Live.SourceName := Some "Service Control Manager";
     Live.ComputerName := None;
     Live.StringInserts := None;
     Live.TimeGenerated := "2024-03-01T11:00:00" |}.

Definition raw_two_lines : RawRecord :=
  raw_event (PInt 4624) (PStr "2024-03-01T10:00:00")
            (Some ("first line" +:+ CRLF +:+ "second line")).

Definition ev_one_line : SecurityEvent :=
  sample_event 1709287200000000 4624 "first line second line" "Logon success".

Definition ev_service : SecurityEvent :=
  {| time_created := mk_datetime 1709290800000000 None; event_id := 7036;
     level := "Information"; provider := "Service Control Manager";
     machine_name := ""; message := ""; category := "Other" |}.

Definition ev_failure_warning : SecurityEvent :=
  {| time_created := mk_datetime 1709294400000000 None; event_id := 4625;
     level := "Warning"; provider := "Microsoft-Windows-Security-Auditing";
     machine_name := "WS01"; message := "mallory WS01"; category := "Logon failure" |}.

Definition demo_logon : Element :=
  [ ("TimeCreated", "2024-03-01T10:00:00"); ("Id", "4624"); ("Level", "Information");
    ("Message", "S-1-5-18 SYSTEM NT AUTHORITY") ].

(** ** Raw records with values of any type

    [normalize_event] takes any [dict]: nothing fixes the type of the values
    under ["Id"] and ["TimeCreated"], and [int()] and [parse_time] answer
    differently for each type.  [pyobj] holds the values a record can carry
    when a caller builds it or reads it from JSON; [RawRecord] above is the
    part of them that the live reader and the demo document produce. *)

(** A [float]: the finite value [m * 2 ^ e], an infinity, or a NaN. *)
Inductive pyfloat : Type :=
| FFinite (m e : Z)
| FInf (negative : bool)
| FNan.

(** A [dict] is seen through its [str] keys, in insertion order. *)
Inductive pyobj : Type :=
| ONone
| OBool (b : bool)
| OInt (n : Z)
| OFloat (x : pyfloat)
| OStr (s : string)
| OList (items : list pyobj)
| ODict (entries : list (string * pyobj)).

Module Wide.

(** A raw event dictionary: [Id] and [TimeCreated] are what [raw.get(key)]
    returns, of any type.  The four text fields go through [str(v or "")],
    which raises for no value; they hold a [str] or [None] as above. *)
Record RawRecord : Type := mk_RawRecord {
  Id : pyobj;
  TimeCreated : pyobj;
  LevelDisplayName : option string;
  ProviderName : option string;
  MachineName : option string;
  Message : option string
}.

(** [bool(v)], the test of [if not value]. *)
Definition truth (v : pyobj) : bool :=
  match v with
  | ONone => false
  | OBool b => b
  | OInt n => negb (n =? 0)
  | OFloat (FFinite m _) => negb (m =? 0)
  | OFloat _ => true
  | OStr s => negb (String.eqb s "")
  | OList items => match items with [] => false | _ => true end
  | ODict entries => match entries with [] => false | _ => true end
  end.

(** [int(x)] for a finite [float]: the value with its fraction dropped. *)
Definition float_trunc (m e : Z) : Z :=
  if 0 <=? e then m * 2 ^ e else Z.quot m (2 ^ (- e)).

(** [int(v)]: [OverflowError] for an infinity, [ValueError] for a NaN and
    for a text that is no numeral, [TypeError] for [None], a list or a
    dict. *)
Definition py_int (v : pyobj) : exc Z :=
  match v with
  | OInt n => Ok n
  | OBool b => Ok (if b then 1 else 0)
  | OFloat (FFinite m e) => Ok (float_trunc m e)
  | OFloat (FInf _) => Raise OverflowError
  | OFloat FNan => Raise ValueError
  | OStr s => int_str s
  | ONone | OList _ | ODict _ => Raise TypeError
  end.

(** [d.get(key)] *)
Definition dict_get (entries : list (string * pyobj)) (key : string) : pyobj :=
  match find (λ entry, String.eqb (fst entry) key) entries with
  | Some entry => snd entry
  | None => ONone
  end.

(** [parse_time(value)] for a [value] of any type: [value.replace] exists
    for a [str] only, and the [except ValueError] clause does not catch the
    [AttributeError] of the other types. *)
Definition parse_time `{PyDatetime} (value : pyobj) : exc datetime :=
  if negb (truth value) then Ok fromtimestamp0
  else
    match value with
    | OStr value =>
        match fromisoformat (PyStr.replace "Z" "+00:00" value) with
        | Some t => Ok t
        | None => Ok fromtimestamp0
        end
    | _ => Raise AttributeError
    end.

(** The value of [time_created_raw] when [parse_time] is called. *)
Definition time_created_raw (raw : RawRecord) : pyobj :=
  let time_created_value := TimeCreated raw in
  match time_created_value with
  | OStr s => OStr s
  | ODict entries => dict_get entries "DateTime"
  | _ => ONone
  end.

Definition normalize_event `{PyDatetime} (raw : RawRecord) : exc (option SecurityEvent) :=
  match py_int (Id raw) with
  | Raise TypeError | Raise ValueError => Ok None
  | Raise e => Raise e
  | Ok event_id =>
      time_created ← parse_time (time_created_raw raw);
      let level := str_or_empty (LevelDisplayName raw) in
      let provider := str_or_empty (ProviderName raw) in
      let machine_name := str_or_empty (MachineName raw) in
      let message :=
        PyStr.replace LF " " (PyStr.replace CRLF " " (str_or_empty (Message raw))) in
      let category := categorize_event event_id in
      Ok (Some (mk_SecurityEvent time_created event_id level provider
                  machine_name message category))
  end.

(** The platform test and a log reader that may return any records. *)
Record Host : Type := mk_Host {
  is_windows : bool;
  get_raw_events : string -> Z -> exc (list RawRecord)
}.

(** The body of the [for raw in raw_events] loop; [events] is the list
    built so far. *)
Fixpoint collect_loop `{PyDatetime} (hide_system_logons : bool)
    (ids_filter : option (gset Z)) (raw_events : list RawRecord)
    (events : list SecurityEvent) : exc (list SecurityEvent) :=
  match raw_events with
  | [] => Ok events
  | raw :: rest =>
      normalized ← normalize_event raw;
      match normalized with
      | None => collect_loop hide_system_logons ids_filter rest events
      | Some normalized =>
          if hide_system_logons && (event_id normalized =? 4624)
             && PyStr.contains SYSTEM_LOGON_SIGNATURE (PyStr.lower (message normalized))
          then collect_loop hide_system_logons ids_filter rest events
          else
            match ids_filter with
            | Some ids =>
                if bool_decide (event_id normalized ∉ ids)
                then collect_loop hide_system_logons ids_filter rest events
                else collect_loop hide_system_logons ids_filter rest (events ++ [normalized])
            | None => collect_loop hide_system_logons ids_filter rest (events ++ [normalized])
            end
      end
  end.

Definition collect_events `{PyDatetime} (h : Host) (log_name : string) (max_events : Z)
    (important_only : bool) (event_ids : option (list Z))
    (hide_system_logons : bool) : exc (list SecurityEvent) :=
  if negb (is_windows h) then Raise RuntimeError
  else
    let ids_filter := ids_filter_of important_only event_ids in
    raw_events ← get_raw_events h log_name max_events;
    events ← collect_loop hide_system_logons ids_filter raw_events [];
    list_sort_reverse dt_lt time_created events.

(** [normalize_event] returns on [raw], with an event or with [None]. *)
Definition normalizes `{PyDatetime} (raw : RawRecord) : Prop :=
  ∃ r, normalize_event raw = Ok r.

(** The events the records normalize to, in retrieval order, and those of
    them that pass the suppression rule and the ID filter. *)
Definition normalized_events `{PyDatetime} (raw_events : list RawRecord)
  : list SecurityEvent :=
  omap (λ raw, match normalize_event raw with Ok r => r | Raise _ => None end)
       raw_events.

Definition survivors `{PyDatetime} (hide_system_logons : bool)
    (ids_filter : option (gset Z)) (raw_events : list RawRecord)
  : list SecurityEvent :=
  filter (λ e, kept hide_system_logons ids_filter e = true)
         (normalized_events raw_events).

End Wide.

(** A record of the typed kind, as a record of any values. *)
Definition widen_value (v : pyval) : pyobj :=
  match v with
  | PNone => ONone
  | PInt n => OInt n
  | PStr s => OStr s
  | PDict (Some s) => ODict [("DateTime", OStr s)]
  | PDict None => ODict []
  end.

Definition widen (raw : RawRecord) : Wide.RawRecord :=
  {| Wide.Id := widen_value (Id raw);
     Wide.TimeCreated := widen_value (TimeCreated raw);
     Wide.LevelDisplayName := LevelDisplayName raw;
     Wide.ProviderName := ProviderName raw;
     Wide.MachineName := MachineName raw;
     Wide.Message := Message raw |}.

Definition widen_host (h : Host) : Wide.Host :=
  {| Wide.is_windows := is_windows h;
     Wide.get_raw_events := λ log_name max_events,
       match get_raw_events h log_name max_events with
       | Ok raw_events => Ok (widen <$> raw_events)
       | Raise e => Raise e
       end |}.

(** Records that [normalize_event] does not survive, and one it does. *)
Definition wide_event (id : pyobj) (time : pyobj) (msg : option string) : Wide.RawRecord :=
  {| Wide.Id := id; Wide.TimeCreated := time;
     Wide.LevelDisplayName := Some "Information";
     Wide.ProviderName := Some "Microsoft-Windows-Security-Auditing";
     Wide.MachineName := Some "WS01"; Wide.Message := msg |}.

(** [{"Id": float("inf")}] *)
Definition raw_infinite_id : Wide.RawRecord :=
  {| Wide.Id := OFloat (FInf false); Wide.TimeCreated := ONone;
     Wide.LevelDisplayName := None; Wide.ProviderName := None;
     Wide.MachineName := None; Wide.Message := None |}.

(** [{"Id": 4624, "TimeCreated": {"DateTime": 1709287200}}] *)
Definition raw_numeric_datetime : Wide.RawRecord :=
  {| Wide.Id := OInt 4624; Wide.TimeCreated := ODict [("DateTime", OInt 1709287200)];
     Wide.LevelDisplayName := None; Wide.ProviderName := None;
     Wide.MachineName := None; Wide.Message := None |}.

(** A record with a dict for its time, and one with the float 4625.5 for
    its id. *)
Definition wide_logon : Wide.RawRecord :=
  wide_event (OInt 4624) (ODict [("DateTime", OStr "2024-03-01T10:00:00")])
             (Some "alice WS01").

Definition wide_failure : Wide.RawRecord :=
  wide_event (OFloat (FFinite 9251 (-1))) (OStr "2024-03-01T12:00:00") (Some "mallory WS01").

Definition wide_host (raw_events : list Wide.RawRecord) : Wide.Host :=
  {| Wide.is_windows := true; Wide.get_raw_events := λ _ _, Ok raw_events |}.

(** * Properties *)

(** ** Strings *)

Lemma lower_app (a b : string) : PyStr.lower (a +:+ b) = PyStr.lower a +:+ PyStr.lower b.
Proof. induction a as [|c a IH]; simpl; [done|]. by rewrite IH. Qed.

Lemma lower_length (s : string) : String.length (PyStr.lower s) = String.length s.
Proof. induction s as [|c s IH]; simpl; [done|]. by rewrite IH. Qed.

Lemma isspace_lower_char (c : ascii) : PyStr.isspace (PyStr.lower_char c) = PyStr.isspace c.
Proof. destruct c as [[] [] [] [] [] [] [] []]; reflexivity. Qed.

Lemma lower_char_idem (c : ascii) : PyStr.lower_char (PyStr.lower_char c) = PyStr.lower_char c.
Proof. destruct c as [[] [] [] [] [] [] [] []]; reflexivity. Qed.

Lemma lower_idem (s : string) : PyStr.lower (PyStr.lower s) = PyStr.lower s.
Proof. induction s as [|c s IH]; simpl; [done|]. by rewrite lower_char_idem, IH. Qed.

Lemma lower_lstrip (s : string) :
  PyStr.lower (PyStr.lstrip_with PyStr.isspace s) = PyStr.lstrip_with PyStr.isspace (PyStr.lower s).
Proof.
  induction s as [|c s IH]; simpl; [done|].
  rewrite isspace_lower_char. destruct (PyStr.isspace c); [exact IH|done].
Qed.

Lemma lower_rstrip (s : string) :
  PyStr.lower (PyStr.rstrip_with PyStr.isspace s) = PyStr.rstrip_with PyStr.isspace (PyStr.lower s).
Proof.
  induction s as [|c s IH]; simpl; [done|].
  rewrite <- IH, isspace_lower_char.
  destruct (PyStr.rstrip_with PyStr.isspace s) as [|c' r']; simpl;
    [by destruct (PyStr.isspace c)|done].
Qed.

(** Trimming and lower-casing commute. *)
Lemma lower_strip (s : string) : PyStr.lower (PyStr.strip s) = PyStr.strip (PyStr.lower s).
Proof. unfold PyStr.strip, PyStr.strip_with. by rewrite lower_rstrip, lower_lstrip. Qed.

Lemma app_nil_l_str (s : string) : "" +:+ s = s.
Proof. reflexivity. Qed.

Lemma app_cons_str (c : ascii) (a b : string) : String c a +:+ b = String c (a +:+ b).
Proof. reflexivity. Qed.

Lemma app_nil_r_str (s : string) : s +:+ "" = s.
Proof. induction s as [|c s IH]; [done|]. by rewrite app_cons_str, IH. Qed.

Lemma app_assoc_str (a b c : string) : (a +:+ b) +:+ c = a +:+ (b +:+ c).
Proof. induction a as [|x a IH]; [done|]. by rewrite !app_cons_str, IH. Qed.

Lemma startswith_spec (p s : string) :
  PyStr.startswith p s = true ↔ ∃ post, s = p +:+ post.
Proof.
  revert s. induction p as [|a p IH]; intros s; simpl.
  - split; [intros _; by exists s|done].
  - destruct s as [|b s].
    + split; [done|]. intros [post Hp]. by rewrite app_cons_str in Hp.
    + destruct (Ascii.eqb_spec a b) as [->|Hne].
      * rewrite IH. split; intros [post Hp]; exists post.
        -- by rewrite app_cons_str, Hp.
        -- rewrite app_cons_str in Hp. by injection Hp.
      * split; [done|]. intros [post Hp]. rewrite app_cons_str in Hp. congruence.
Qed.

(** [needle in s] holds exactly when [s] is [pre + needle + post]. *)
Lemma contains_spec (needle s : string) :
  PyStr.contains needle s = true ↔ ∃ pre post, s = pre +:+ needle +:+ post.
Proof.
  induction s as [|c s IH]; simpl.
  - rewrite orb_false_r, startswith_spec. split.
    + intros [post Hp]. by exists "", post.
    + intros (pre & post & Hp). destruct pre; [by exists post|by rewrite app_cons_str in Hp].
  - rewrite orb_true_iff, startswith_spec, IH. split.
    + intros [[post Hp]|(pre & post & Hp)].
      * by exists "", post.
      * exists (String c pre), post. by rewrite app_cons_str, Hp.
    + intros (pre & post & Hp). destruct pre as [|c' pre].
      * left. by exists post.
      * right. rewrite app_cons_str in Hp. injection Hp as _ Hp. by exists pre, post.
Qed.

Lemma lower_app_inv (s a b : string) :
  PyStr.lower s = a +:+ b →
  ∃ s1 s2, s = s1 +:+ s2 ∧ PyStr.lower s1 = a ∧ PyStr.lower s2 = b.
Proof.
  revert s. induction a as [|x a IH]; intros s Hs.
  - by exists "", s.
  - destruct s as [|c s]; [done|]. rewrite app_cons_str in Hs. simpl in Hs.
    injection Hs as Hc Hs. destruct (IH _ Hs) as (s1 & s2 & -> & H1 & H2).
    exists (String c s1), s2. simpl. by rewrite Hc, H1.
Qed.

(** The test the program writes, [needle.lower() in s.lower()], is
    containment with case ignored. *)
Lemma contains_lower_ci (needle s : string) :
  PyStr.contains (PyStr.lower needle) (PyStr.lower s) = true ↔ contains_ci needle s.
Proof.
  rewrite contains_spec. split.
  - intros (pre & post & Hs).
    destruct (lower_app_inv _ _ _ Hs) as (s1 & s' & -> & _ & Hs').
    destruct (lower_app_inv _ _ _ Hs') as (s2 & s3 & -> & H2 & _).
    by exists s1, s2, s3.
  - intros (pre & mid & post & -> & Hmid).
    exists (PyStr.lower pre), (PyStr.lower post). by rewrite !lower_app, Hmid.
Qed.

Lemma signature_is_lower : PyStr.lower SYSTEM_LOGON_SIGNATURE = SYSTEM_LOGON_SIGNATURE.
Proof. reflexivity. Qed.

(** Replacing a one-character [old] works character by character. *)
Lemma replace_go_char_cons (c : ascii) (new : string) (a : ascii) (r : string) :
  PyStr.replace_go (String c "") new O (String a r)
  = (if Ascii.eqb c a then new else String a "") +:+ PyStr.replace_go (String c "") new O r.
Proof. simpl. by destruct (Ascii.eqb c a). Qed.

Lemma replace_char_app (c : ascii) (new a b : string) :
  PyStr.replace (String c "") new (a +:+ b)
  = PyStr.replace (String c "") new a +:+ PyStr.replace (String c "") new b.
Proof.
  unfold PyStr.replace. induction a as [|x a IH]; [done|].
  rewrite app_cons_str, !replace_go_char_cons, IH. by rewrite app_assoc_str.
Qed.

Lemma contains_cons_ne (c a : ascii) (n t : string) :
  c ≠ a → PyStr.contains (String c n) (String a t) = PyStr.contains (String c n) t.
Proof.
  intros Hne. cbn [PyStr.contains PyStr.startswith].
  by rewrite (proj2 (Ascii.eqb_neq _ _) Hne).
Qed.

Lemma replace_LF_no_LF (s : string) :
  PyStr.contains LF (PyStr.replace LF " " s) = false.
Proof.
  unfold PyStr.replace, LF. induction s as [|a r IH]; [done|].
  rewrite replace_go_char_cons.
  destruct (Ascii.eqb_spec (ascii_of_N 10) a) as [<-|Hne].
  - exact IH.
  - rewrite !app_cons_str, app_nil_l_str. by rewrite contains_cons_ne.
Qed.

Lemma replace_newlines_collapse (s : string) :
  PyStr.replace LF " " (PyStr.replace CRLF " " s) = collapse_newlines s.
Proof.
  unfold PyStr.replace, CRLF, LF.
  set (lf := ascii_of_N 10). set (cr := ascii_of_N 13).
  set (P := λ s, PyStr.replace_go (String lf "") " " O
                   (PyStr.replace_go (String cr (String lf "")) " " O s)
                 = collapse_newlines s).
  assert (Hne : Ascii.eqb lf cr = false) by reflexivity.
  assert (Hne' : Ascii.eqb cr lf = false) by reflexivity.
  assert (Hstep : ∀ a r, P r → (∀ b r', r = String b r' → P r') → P (String a r)).
  { intros a r Hr Hr'. unfold P in *.
    cbn [PyStr.replace_go PyStr.startswith collapse_newlines String.length Nat.pred].
    fold lf cr.
    destruct (Ascii.eqb_spec a lf) as [->|Half].
    - rewrite Hne', replace_go_char_cons, Ascii.eqb_refl, Hr. done.
    - destruct (Ascii.eqb_spec a cr) as [->|Hacr].
      + rewrite Ascii.eqb_refl. destruct r as [|b r']; [done|].
        rewrite (Ascii.eqb_sym lf b).
        destruct (Ascii.eqb_spec b lf) as [->|Hblf].
        * rewrite app_cons_str, app_nil_l_str, replace_go_char_cons.
          replace (Ascii.eqb lf " ") with false by reflexivity.
          rewrite app_cons_str, app_nil_l_str. f_equal.
          cbn [PyStr.replace_go]. by apply (Hr' lf r').
        * rewrite replace_go_char_cons, Hne, app_cons_str, app_nil_l_str. by rewrite Hr.
      + rewrite (Ascii.eqb_sym cr a), (proj2 (Ascii.eqb_neq _ _) Hacr).
        rewrite replace_go_char_cons, (Ascii.eqb_sym lf a), (proj2 (Ascii.eqb_neq _ _) Half).
        rewrite app_cons_str, app_nil_l_str. by rewrite Hr. }
  assert (Hall : ∀ s, P s ∧ ∀ a, P (String a s)).
  { clear s. induction s as [|x s [IH1 IH2]].
    - split; [done|]. intros a. apply Hstep; [done|done].
    - split; [apply IH2|]. intros a. apply Hstep; [apply IH2|].
      intros b r' [= -> ->]. exact IH1. }
  apply Hall.
Qed.

(** ** Sorting *)

Lemma bind_Ok {A B : Type} (m : exc A) (f : A → exc B) (b : B) :
  m ≫= f = Ok b ↔ ∃ a, m = Ok a ∧ f a = Ok b.
Proof.
  destruct m as [a|e]; cbn.
  - split; [by exists a|]. by intros (? & [= <-] & ?).
  - split; [done|]. by intros (? & ? & ?).
Qed.

Lemma dt_lt_Ok (a b : datetime) (r : bool) :
  dt_lt a b = Ok r ↔ aware a = aware b ∧ r = (dt_point a <? dt_point b).
Proof.
  unfold dt_lt, aware, dt_point.
  destruct (dt_utcoffset a), (dt_utcoffset b); split;
    try (intros [= <-]; done); try (intros [? ->]; done).
Qed.

Lemma dt_lt_Raise (a b : datetime) (e : exn) :
  dt_lt a b = Raise e ↔ aware a ≠ aware b ∧ e = TypeError.
Proof.
  unfold dt_lt, aware.
  destruct (dt_utcoffset a), (dt_utcoffset b); split;
    try (intros [= <-]; done); try (intros [? ->]; done); try done.
Qed.

Lemma dt_eq_true (a b : datetime) :
  dt_eq a b = true ↔ aware a = aware b ∧ dt_point a = dt_point b.
Proof.
  unfold dt_eq, aware, dt_point.
  destruct (dt_utcoffset a), (dt_utcoffset b); rewrite ?Z.eqb_eq; naive_solver.
Qed.

Section SortFacts.
Context {A : Type} (key : A → datetime).

Local Abbreviation insert_ := (sort_insert dt_lt key).
Local Abbreviation sort_ := (sort_ascending dt_lt key).
Local Abbreviation uniform := (uniform key).

Lemma uniform_cons (x : A) (l : list A) :
  uniform (x :: l) ↔ (∀ y, y ∈ l → aware (key x) = aware (key y)) ∧ uniform l.
Proof.
  unfold uniform. split.
  - intros H. split; [intros y Hy|intros a b Ha Hb]; apply H; set_solver.
  - intros [Hx Hl] a b [->|Ha]%elem_of_cons [->|Hb]%elem_of_cons; auto.
    symmetry; auto.
Qed.

Lemma uniform_perm (l l' : list A) : l ≡ₚ l' → uniform l → uniform l'.
Proof. intros Hp H a b Ha Hb. apply H; by rewrite Hp. Qed.

Lemma sort_insert_perm (x : A) (l r : list A) :
  insert_ x l = Ok r → r ≡ₚ x :: l.
Proof.
  revert r. induction l as [|y l IH]; intros r; cbn [sort_insert].
  - by intros [= <-].
  - intros (b & Hb & Hr)%bind_Ok. destruct b.
    + apply bind_Ok in Hr as (r' & Hr' & [= <-]).
      rewrite (IH _ Hr'). apply Permutation_swap.
    + by injection Hr as <-.
Qed.

Lemma sort_ascending_perm (l r : list A) : sort_ l = Ok r → r ≡ₚ l.
Proof.
  revert r. induction l as [|x l IH]; intros r; cbn [sort_ascending].
  - by intros [= <-].
  - intros (s & Hs & Hr)%bind_Ok. rewrite (sort_insert_perm _ _ _ Hr).
    by rewrite (IH _ Hs).
Qed.

(** A sort that returns has compared every element with another one, so
    the keys are all naive or all aware. *)
Lemma sort_insert_uniform (x : A) (l r : list A) :
  uniform l → insert_ x l = Ok r → uniform (x :: l).
Proof.
  intros Hl. destruct l as [|y l]; cbn [sort_insert].
  - intros _ a b Ha Hb. set_solver.
  - intros (b & Hb & _)%bind_Ok. apply dt_lt_Ok in Hb as [Hyx _].
    apply uniform_cons. split; [|done].
    intros z Hz. rewrite <- Hyx. apply Hl; set_solver.
Qed.

Lemma sort_ascending_uniform (l r : list A) : sort_ l = Ok r → uniform l.
Proof.
  revert r. induction l as [|x l IH]; intros r; cbn [sort_ascending].
  - intros _ a b Ha. set_solver.
  - intros (s & Hs & Hr)%bind_Ok.
    pose proof (sort_ascending_perm _ _ Hs) as Hp.
    assert (Hu : uniform (x :: s)).
    { eapply sort_insert_uniform; [|done]. eapply uniform_perm; [symmetry; done|].
      by eapply IH. }
    eapply uniform_perm; [|done]. by constructor.
Qed.

Lemma sort_insert_returns (x : A) (l : list A) :
  uniform (x :: l) → ∃ r, insert_ x l = Ok r.
Proof.
  induction l as [|y l IH]; intros Hu; cbn [sort_insert]; [by eexists|].
  assert (Hxy : aware (key y) = aware (key x)) by (apply Hu; set_solver).
  destruct (dt_lt (key y) (key x)) as [b|e] eqn:Hlt.
  - cbn. destruct b; [|by eexists].
    destruct IH as [r ->]; [|by eexists].
    intros a b Ha Hb. apply Hu; set_solver.
  - apply dt_lt_Raise in Hlt as [? _]. done.
Qed.

Lemma sort_ascending_returns (l : list A) : uniform l → ∃ r, sort_ l = Ok r.
Proof.
  induction l as [|x l IH]; intros Hu; cbn [sort_ascending]; [by eexists|].
  destruct IH as [s Hs]; [by apply uniform_cons in Hu as [_ ?]|].
  rewrite Hs. cbn. apply sort_insert_returns.
  eapply uniform_perm; [|done]. constructor. symmetry.
  by apply sort_ascending_perm.
Qed.
Local Abbreviation ascending := (λ a b : A, dt_point (key a) ≤ dt_point (key b)).

Lemma sort_insert_sorted (x : A) (l r : list A) :
  StronglySorted ascending l → insert_ x l = Ok r → StronglySorted ascending r.
Proof.
  revert r. induction l as [|y l IH]; intros r Hl; cbn [sort_insert].
  - intros [= <-]. repeat constructor.
  - intros (b & Hb & Hr)%bind_Ok. apply dt_lt_Ok in Hb as [_ ->].
    apply StronglySorted_cons in Hl as [Hy Hl].
    destruct (dt_point (key y) <? dt_point (key x)) eqn:Hlt.
    + apply bind_Ok in Hr as (r' & Hr' & [= <-]).
      apply StronglySorted_cons. split; [|by apply IH].
      rewrite (sort_insert_perm _ _ _ Hr'). constructor; [|done].
      apply Z.ltb_lt in Hlt. lia.
    + injection Hr as <-. apply Z.ltb_ge in Hlt.
      apply StronglySorted_cons. split; [|by apply StronglySorted_cons].
      constructor; [done|]. eapply Forall_impl; [done|]. cbn. intros z Hz. lia.
Qed.

Lemma sort_ascending_sorted (l r : list A) :
  sort_ l = Ok r → StronglySorted ascending r.
Proof.
  revert r. induction l as [|x l IH]; intros r; cbn [sort_ascending].
  - intros [= <-]. constructor.
  - intros (s & Hs & Hr)%bind_Ok. eapply sort_insert_sorted; [|done]. by apply IH.
Qed.

Local Abbreviation tie t := (λ a : A, dt_eq (key a) t = true).

(** Insertion puts the new element in front of the elements that are not
    smaller, so it goes first among its equals. *)
Lemma sort_insert_ties (t : datetime) (x : A) (l r : list A) :
  insert_ x l = Ok r → filter (tie t) r = filter (tie t) (x :: l).
Proof.
  revert r. induction l as [|y l IH]; intros r; cbn [sort_insert].
  - by intros [= <-].
  - intros (b & Hb & Hr)%bind_Ok. apply dt_lt_Ok in Hb as [_ ->].
    destruct (dt_point (key y) <? dt_point (key x)) eqn:Hlt; [|by injection Hr as <-].
    apply bind_Ok in Hr as (r' & Hr' & [= <-]). apply Z.ltb_lt in Hlt.
    rewrite (filter_cons _ y r'), (IH _ Hr'), !filter_cons.
    destruct (decide (tie t y)) as [Hy|Hy], (decide (tie t x)) as [Hx|Hx]; try done.
    apply dt_eq_true in Hy as [_ Hy], Hx as [_ Hx]. lia.
Qed.

Lemma sort_ascending_ties (t : datetime) (l r : list A) :
  sort_ l = Ok r → filter (tie t) r = filter (tie t) l.
Proof.
  revert r. induction l as [|x l IH]; intros r; cbn [sort_ascending].
  - by intros [= <-].
  - intros (s & Hs & Hr)%bind_Ok.
    rewrite (sort_insert_ties _ _ _ _ Hr), !filter_cons, (IH _ Hs). done.
Qed.

Local Abbreviation rsort := (list_sort_reverse dt_lt key).

Lemma list_sort_reverse_Ok (l r : list A) :
  rsort l = Ok r ↔ ∃ s, sort_ (reverse l) = Ok s ∧ r = reverse s.
Proof.
  unfold list_sort_reverse. rewrite bind_Ok. split.
  - intros (s & Hs & [= <-]). by exists s.
  - intros (s & Hs & ->). by exists s.
Qed.

Lemma list_sort_reverse_perm (l r : list A) : rsort l = Ok r → r ≡ₚ l.
Proof.
  intros (s & Hs & ->)%list_sort_reverse_Ok.
  by rewrite reverse_Permutation, (sort_ascending_perm _ _ Hs), reverse_Permutation.
Qed.

Lemma list_sort_reverse_uniform (l r : list A) : rsort l = Ok r → uniform l.
Proof.
  intros (s & Hs & ->)%list_sort_reverse_Ok.
  eapply uniform_perm; [apply reverse_Permutation|]. by eapply sort_ascending_uniform.
Qed.

Lemma list_sort_reverse_returns (l : list A) : uniform l → ∃ r, rsort l = Ok r.
Proof.
  intros Hu. destruct (sort_ascending_returns (reverse l)) as [s Hs].
  - eapply uniform_perm; [symmetry; apply reverse_Permutation|done].
  - exists (reverse s). apply list_sort_reverse_Ok. by exists s.
Qed.

(** A naive key next to an aware one makes the sort raise [TypeError]. *)
Lemma list_sort_reverse_raises (l : list A) :
  ¬ uniform l → rsort l = Raise TypeError.
Proof.
  intros Hu. destruct (rsort l) as [r|e] eqn:Hr.
  - destruct Hu. by eapply list_sort_reverse_uniform.
  - f_equal. clear Hu. unfold list_sort_reverse in Hr.
    assert (Hgen : ∀ l e, sort_ l = Raise e → e = TypeError).
    { clear. induction l as [|x l IH]; intros e; cbn [sort_ascending]; [done|].
      destruct (sort_ l) as [s|e'] eqn:Hs; cbn; [|intros [= <-]; by apply IH].
      clear. revert e. induction s as [|y s IHs]; intros e; cbn [sort_insert]; [done|].
      destruct (dt_lt (key y) (key x)) as [b|e'] eqn:Hlt; cbn.
      - destruct b; [|done]. destruct (insert_ x s) eqn:Hi; cbn; [done|].
        intros [= <-]. by apply IHs.
      - intros [= <-]. by apply dt_lt_Raise in Hlt as [_ ->]. }
    destruct (sort_ (reverse l)) as [s|e'] eqn:Hs; cbn in Hr; [done|].
    injection Hr as <-. by eapply Hgen.
Qed.

Lemma list_sort_reverse_sorted (l r : list A) :
  rsort l = Ok r → StronglySorted (λ a b, dt_lt (key a) (key b) = Ok false) r.
Proof.
  intros Hr. pose proof (list_sort_reverse_uniform _ _ Hr) as Hu.
  pose proof (list_sort_reverse_perm _ _ Hr) as Hp.
  apply list_sort_reverse_Ok in Hr as (s & Hs & ->).
  apply sort_ascending_sorted in Hs.
  assert (Hin : ∀ a, a ∈ s → a ∈ l).
  { intros a Ha. by rewrite <- Hp, elem_of_reverse. }
  clear Hp. induction Hs as [|x s Hs IH Hx].
  - constructor.
  - rewrite reverse_cons. apply StronglySorted_app_2.
    + intros a b Ha [->|[]%elem_of_nil]%elem_of_cons. rewrite elem_of_reverse in Ha.
      apply dt_lt_Ok. split; [apply Hu; apply Hin; set_solver|].
      symmetry. apply Z.ltb_ge. rewrite Forall_forall in Hx. by apply Hx.
    + apply IH. intros a Ha. apply Hin. set_solver.
    + repeat constructor.
Qed.

Lemma list_sort_reverse_ties (t : datetime) (l r : list A) :
  rsort l = Ok r → filter (tie t) r = filter (tie t) l.
Proof.
  intros (s & Hs & ->)%list_sort_reverse_Ok.
  rewrite filter_reverse, (sort_ascending_ties _ _ _ Hs), filter_reverse.
  apply reverse_involutive.
Qed.
End SortFacts.

(** ** The pipeline *)

Section Pipeline.
Context `{PyDatetime}.

Lemma int_str_Ok (s : string) (n : Z) : int_str s = Ok n ↔ PyStr.int_of_str s = Some n.
Proof. unfold int_str. destruct (PyStr.int_of_str s); naive_solver. Qed.

Lemma int_str_Raise (s : string) (e : exn) :
  int_str s = Raise e ↔ PyStr.int_of_str s = None ∧ e = ValueError.
Proof. unfold int_str. destruct (PyStr.int_of_str s); naive_solver. Qed.

(** [int()] raises [TypeError] or [ValueError] and nothing else. *)
Lemma py_int_Raise (v : pyval) (e : exn) :
  py_int v = Raise e → e = TypeError ∨ e = ValueError.
Proof.
  destruct v as [|n|s|d]; cbn;
    [intros [= <-]; by left | done | | intros [= <-]; by left].
  intros [_ ->]%int_str_Raise. by right.
Qed.

Lemma normalize_event_eq (raw : RawRecord) :
  normalize_event raw
  = Ok match py_int (Id raw) with
       | Ok event_id => Some (event_of raw event_id)
       | Raise _ => None
       end.
Proof.
  unfold normalize_event.
  destruct (py_int (Id raw)) as [n|e] eqn:Hid; [done|].
  by destruct (py_int_Raise _ _ Hid) as [-> | ->].
Qed.

Lemma elem_of_normalized_events (raw_events : list RawRecord) (e : SecurityEvent) :
  e ∈ normalized_events raw_events
  ↔ ∃ raw, raw ∈ raw_events ∧ normalize_event raw = Ok (Some e).
Proof.
  unfold normalized_events. rewrite list_elem_of_omap.
  split; intros (raw & Hraw & He); exists raw; (split; [done|]).
  - rewrite normalize_event_eq in *. by rewrite He.
  - by rewrite He.
Qed.

Lemma kept_spec (hide : bool) (ids_filter : option (gset Z)) (e : SecurityEvent) :
  kept hide ids_filter e = true
  ↔ ¬ (hide = true ∧ is_system_logon e) ∧ passes_ids ids_filter e.
Proof.
  unfold kept, is_system_logon, passes_ids.
  rewrite andb_true_iff, negb_true_iff, <- not_true_iff_false, !andb_true_iff.
  rewrite <- signature_is_lower at 1. rewrite contains_lower_ci, Z.eqb_eq.
  assert (Hids : match ids_filter with
                 | Some ids => bool_decide (event_id e ∈ ids)
                 | None => true
                 end = true ↔ ∀ ids, ids_filter = Some ids → event_id e ∈ ids).
  { destruct ids_filter as [ids|]; [|naive_solver].
    rewrite bool_decide_eq_true. naive_solver. }
  rewrite Hids. naive_solver.
Qed.

Lemma collect_loop_eq (hide : bool) (ids_filter : option (gset Z))
    (raw_events : list RawRecord) (events : list SecurityEvent) :
  collect_loop hide ids_filter raw_events events
  = Ok (events ++ survivors hide ids_filter raw_events).
Proof.
  unfold survivors, normalized_events.
  revert events. induction raw_events as [|raw rest IH]; intros events.
  - cbn. by rewrite app_nil_r.
  - cbn [collect_loop omap list_omap]. rewrite normalize_event_eq. cbn.
    destruct (py_int (Id raw)) as [n|e]; [|apply IH].
    set (ev := event_of raw n). rewrite filter_cons.
    assert (Hk : kept hide ids_filter ev
                 = negb (hide && (event_id ev =? 4624)
                         && PyStr.contains SYSTEM_LOGON_SIGNATURE (PyStr.lower (message ev)))
                   && match ids_filter with
                      | Some ids => bool_decide (event_id ev ∈ ids)
                      | None => true
                      end) by done.
    destruct (hide && (event_id ev =? 4624)
              && PyStr.contains SYSTEM_LOGON_SIGNATURE (PyStr.lower (message ev))).
    { rewrite decide_False by (by rewrite Hk). apply IH. }
    cbn in Hk. destruct ids_filter as [ids|].
    + destruct (decide (event_id ev ∈ ids)) as [Hin|Hin].
      * rewrite (bool_decide_eq_false_2 (event_id ev ∉ ids)) by tauto.
        rewrite (bool_decide_eq_true_2 _ Hin) in Hk. rewrite decide_True by done.
        by rewrite IH, <- app_assoc.
      * rewrite (bool_decide_eq_true_2 (event_id ev ∉ ids)) by done.
        rewrite (bool_decide_eq_false_2 _ Hin) in Hk.
        rewrite decide_False by (by rewrite Hk). apply IH.
    + rewrite decide_True by done. by rewrite IH, <- app_assoc.
Qed.

Lemma collect_events_Ok (h : Host) (log_name : string) (max_events : Z)
    (important_only : bool) (event_ids : option (list Z)) (hide : bool)
    (evs : list SecurityEvent) :
  collect_events h log_name max_events important_only event_ids hide = Ok evs
  ↔ is_windows h = true
    ∧ ∃ raw_events,
        get_raw_events h log_name max_events = Ok raw_events
        ∧ list_sort_reverse dt_lt time_created
            (survivors hide (ids_filter_of important_only event_ids) raw_events)
          = Ok evs.
Proof.
  unfold collect_events. destruct (is_windows h); cbn; [|naive_solver].
  destruct (get_raw_events h log_name max_events) as [raws|e]; cbn; [|naive_solver].
  rewrite collect_loop_eq. cbn. split.
  - intros Hsort. split; [done|]. by exists raws.
  - by intros (_ & raws' & [= <-] & Hsort).
Qed.

Lemma demo_loop_eq (elements : list Element) (events : list SecurityEvent) :
  demo_loop elements events = Ok (events ++ omap demo_event elements).
Proof.
  revert events. induction elements as [|el rest IH]; intros events.
  - cbn. by rewrite app_nil_r.
  - change (omap demo_event (el :: rest))
      with (match demo_event el with
            | Some y => y :: omap demo_event rest
            | None => omap demo_event rest
            end).
    cbn [demo_loop]. unfold demo_event at 1.
    destruct (findtext el "Id") as [t|]; cbn; [|apply IH].
    unfold int_str. destruct (PyStr.int_of_str t) as [n|]; cbn; [|apply IH].
    by rewrite IH, <- app_assoc.
Qed.

Lemma load_events_from_demo_xml_Ok (h : Host) (path : string) (evs : list SecurityEvent) :
  load_events_from_demo_xml h path = Ok evs
  ↔ ∃ elements,
      parse_events h path = Ok elements
      ∧ list_sort_reverse dt_lt time_created (omap demo_event elements) = Ok evs.
Proof.
  unfold load_events_from_demo_xml.
  destruct (parse_events h path) as [els|e]; cbn; [|naive_solver].
  rewrite demo_loop_eq. cbn. split.
  - intros Hsort. by exists els.
  - by intros (els' & [= <-] & Hsort).
Qed.
End Pipeline.

(** ** The level normalizer *)

Lemma find_synonym_miss (value : string) :
  Forall (λ p, fst p ≠ value) LEVEL_SYNONYMS →
  find (λ p, String.eqb (fst p) value) LEVEL_SYNONYMS = None.
Proof.
  induction 1 as [|p l Hp _ IH]; [done|].
  cbn [find]. by rewrite (proj2 (String.eqb_neq _ _) Hp).
Qed.

Lemma normalize_level_name_table (level : string) :
  normalize_level_name level = normalize_level_spec level.
Proof.
  unfold normalize_level_name, normalize_level_spec.
  rewrite lower_strip. set (value := PyStr.strip (PyStr.lower level)). clearbody value.
  destruct (decide (Forall (λ p, fst p ≠ value) LEVEL_SYNONYMS)) as [Hmiss|Hhit].
  - rewrite (find_synonym_miss _ Hmiss).
    unfold LEVEL_SYNONYMS in Hmiss. rewrite !Forall_cons in Hmiss. cbn [fst] in Hmiss.
    repeat (rewrite bool_decide_eq_false_2 by set_solver). done.
  - apply not_Forall_Exists in Hhit; [|intros p; apply _].
    unfold LEVEL_SYNONYMS in Hhit. rewrite !Exists_cons, Exists_nil in Hhit. cbn [fst] in Hhit.
    destruct Hhit as [Hv|[Hv|[Hv|[Hv|[Hv|[Hv|[Hv|[Hv|[Hv|[Hv|[Hv|[]]]]]]]]]]]];
      apply dec_stable in Hv; subst value; reflexivity.
Qed.

(** C9: [normalize_level_name] is a total function that lower-cases and
    trims its input and looks the result up in the synonym sets
    (debug/verbose/trace give "debug", information/info give "info",
    warning/warn give "warning", error/err give "error", critical/fatal give
    "critical"); every other input, the empty string included, gives
    "info", and the result is always one of the five canonical levels. *)
Theorem C9_normalize_level_total (level : string) :
  normalize_level_name level = normalize_level_spec level
  ∧ normalize_level_name level ∈ CANONICAL_LEVELS
  ∧ (PyStr.strip (PyStr.lower level) ∉ LEVEL_SYNONYMS.*1 →
     normalize_level_name level = "info")
  ∧ normalize_level_name "" = "info".
Proof.
  rewrite normalize_level_name_table. unfold normalize_level_spec.
  set (value := PyStr.strip (PyStr.lower level)). clearbody value.
  split; [done|]. split; [|split; [|reflexivity]].
  - destruct (find _ LEVEL_SYNONYMS) as [p|] eqn:Hfind; [|set_solver].
    apply find_some in Hfind as [Hin _]. apply list_elem_of_In in Hin.
    unfold LEVEL_SYNONYMS, CANONICAL_LEVELS in *.
    repeat (apply elem_of_cons in Hin as [->|Hin]; [cbn [snd]; set_solver|]).
    by apply elem_of_nil in Hin.
  - intros Hmiss. rewrite find_synonym_miss; [done|].
    apply Forall_forall. intros p Hp Heq. apply Hmiss.
    apply list_elem_of_fmap. by exists p.
Qed.

(** ** [parse_event_ids] *)

Lemma csv_parts_tokens (value : string) : csv_parts value = id_tokens value.
Proof.
  unfold csv_parts, id_tokens. induction (PyStr.split "," value) as [|p l IH]; [done|].
  rewrite fmap_cons, !filter_cons, <- IH.
  by destruct (decide (PyStr.strip p ≠ "")).
Qed.

Lemma parse_event_ids_loop_eq (parts : list string) (result : list Z) :
  parse_event_ids_loop parts result = Ok (result ++ omap PyStr.int_of_str parts).
Proof.
  revert result. induction parts as [|part parts IH]; intros result.
  - cbn. by rewrite app_nil_r.
  - cbn [parse_event_ids_loop omap list_omap]. unfold int_str.
    destruct (PyStr.int_of_str part) as [n|]; [|apply IH].
    by rewrite IH, <- app_assoc.
Qed.

(** C10: [parse_event_ids] never raises.  It returns [None] for a missing
    or empty input; otherwise it splits on commas, trims, drops the empty
    tokens, skips the tokens that do not read as integers, and returns [None]
    when no token is left, so that a list of non-numeric ids gives what no
    list at all gives. *)
Theorem C10_parse_event_ids (value : option string) :
  parse_event_ids value = Ok (parse_event_ids_spec value)
  ∧ parse_event_ids None = Ok None
  ∧ parse_event_ids (Some "") = Ok None
  ∧ (∀ s, value = Some s →
          Forall (λ token, PyStr.int_of_str token = None) (id_tokens s) →
          parse_event_ids value = parse_event_ids None
          ∧ ∀ important_only, ids_filter_of important_only (parse_event_ids_spec value)
                              = ids_filter_of important_only None).
Proof.
  assert (Heq : parse_event_ids value = Ok (parse_event_ids_spec value)).
  { destruct value as [[|c s]|]; [reflexivity| |reflexivity].
    unfold parse_event_ids, parse_event_ids_spec.
    rewrite parse_event_ids_loop_eq, csv_parts_tokens.
    generalize (omap PyStr.int_of_str (id_tokens (String c s))).
    by intros [|n ids]. }
  split; [done|]. split; [done|]. split; [done|].
  intros s -> Hnone. rewrite Heq.
  assert (Hspec : parse_event_ids_spec (Some s) = None).
  { unfold parse_event_ids_spec.
    induction Hnone as [|token l Htok _ IH]; [done|].
    cbn [omap list_omap]. by rewrite Htok. }
  by rewrite Hspec.
Qed.

(** ** The record normalizer *)

Section Normalizer.
Context `{PyDatetime}.


(** [parse_time] raises for a value that is true and is no [str], and for
    nothing else; what it raises is [AttributeError]. *)
Lemma wide_parse_time_Raise (v : pyobj) (e : exn) :
  Wide.parse_time v = Raise e
  ↔ e = AttributeError ∧ Wide.truth v = true ∧ ∀ s, v ≠ OStr s.
Proof.
  unfold Wide.parse_time. destruct (Wide.truth v) eqn:Ht; cbn [negb].
  - destruct v; try (split; [by intros [= <-]|by intros (-> & _ & _)]).
    destruct (fromisoformat _); (split; [done|intros (_ & _ & Hs); by destruct (Hs s)]).
  - split; [done|]. by intros (_ & ? & _).
Qed.

(** On a [str], and on [None], [parse_time] is the function of models.py. *)
Lemma wide_parse_time_str (s : string) :
  Wide.parse_time (OStr s) = Ok (parse_time (Some s)).
Proof.
  unfold Wide.parse_time, parse_time. destruct s as [|a s]; [done|].
  cbn [Wide.truth String.eqb negb]. by destruct (fromisoformat _).
Qed.

Lemma wide_parse_time_false (v : pyobj) :
  Wide.truth v = false → Wide.parse_time v = Ok fromtimestamp0.
Proof. unfold Wide.parse_time. by intros ->. Qed.

(** The event [normalize_event] builds once the id and the time are read. *)
Lemma wide_normalize_event_Ok (raw : Wide.RawRecord) (n : Z) (t : datetime) :
  Wide.py_int (Wide.Id raw) = Ok n →
  Wide.parse_time (Wide.time_created_raw raw) = Ok t →
  ∃ e, Wide.normalize_event raw = Ok (Some e)
       ∧ event_id e = n ∧ time_created e = t
       ∧ category e = categorize_event n
       ∧ level e = str_or_empty (Wide.LevelDisplayName raw)
       ∧ provider e = str_or_empty (Wide.ProviderName raw)
       ∧ machine_name e = str_or_empty (Wide.MachineName raw)
       ∧ message e = PyStr.replace LF " " (PyStr.replace CRLF " "
                                             (str_or_empty (Wide.Message raw))).
Proof.
  intros Hid Ht. unfold Wide.normalize_event. rewrite Hid, Ht. cbn [mbind exc_bind].
  eexists. split; [reflexivity|]. by cbn.
Qed.



(** On the records of the typed kind the two normalizers are one. *)
Lemma widen_normalize_event (raw : RawRecord) :
  Wide.normalize_event (widen raw) = normalize_event raw.
Proof.
  unfold Wide.normalize_event, normalize_event, widen. cbn [Wide.Id].
  assert (Hint : Wide.py_int (widen_value (Id raw)) = py_int (Id raw)).
  { by destruct (Id raw) as [|n|s|[s|]]. }
  rewrite Hint. destruct (py_int (Id raw)) as [n|e]; [|done].
  unfold Wide.time_created_raw.
  cbn [Wide.TimeCreated Wide.LevelDisplayName Wide.ProviderName Wide.MachineName
       Wide.Message].
  assert (Htime : Wide.parse_time match widen_value (TimeCreated raw) with
                                  | OStr s => OStr s
                                  | ODict entries => Wide.dict_get entries "DateTime"
                                  | _ => ONone
                                  end
                  = Ok (parse_time match TimeCreated raw with
                                   | PStr s => Some s
                                   | PDict d => d
                                   | _ => None
                                   end)).
  { destruct (TimeCreated raw) as [|k|s|[s|]]; cbn [widen_value]; try done.
    - apply wide_parse_time_str.
    - change (Wide.dict_get [("DateTime", OStr s)] "DateTime") with (OStr s).
      apply wide_parse_time_str. }
  by rewrite Htime.
Qed.

(** A record of the typed kind always normalizes. *)
Lemma widen_normalizes (raw : RawRecord) : Wide.normalizes (widen raw).
Proof. unfold Wide.normalizes. rewrite widen_normalize_event, normalize_event_eq. by eexists. Qed.
End Normalizer.

(** C6: [normalize_event] can raise.  A record whose id is an infinite
    float has no id that reads as an integer, yet it is not dropped: [int()]
    raises [OverflowError], which the [except] clause does not name.  A record whose id is the integer 4624 and whose time
    value is a dict with a number under "DateTime" gives no event:
    [parse_time] raises [AttributeError]. *)
Theorem C6_normalize_event_raises `{PyDatetime} :
  Wide.py_int (Wide.Id raw_infinite_id) = Raise OverflowError
  ∧ Wide.normalize_event raw_infinite_id = Raise OverflowError
  ∧ Wide.py_int (Wide.Id raw_numeric_datetime) = Ok 4624
  ∧ Wide.normalize_event raw_numeric_datetime = Raise AttributeError.
Proof. repeat split. Qed.

(** ** Time stamps *)

Lemma replace_char_absent (c : ascii) (new s : string) :
  PyStr.contains (String c "") s = false → PyStr.replace (String c "") new s = s.
Proof.
  unfold PyStr.replace. induction s as [|a r IH]; [done|].
  rewrite replace_go_char_cons. cbn [PyStr.contains PyStr.startswith].
  destruct (Ascii.eqb c a); [done|]. cbn. intros Hr. by rewrite IH.
Qed.

Lemma app_not_empty (s t : string) : t ≠ "" → s +:+ t ≠ "".
Proof. destruct s, t; done. Qed.

Lemma parse_time_nonempty `{PyDatetime} (s : string) :
  s ≠ "" →
  parse_time (Some s)
  = default fromtimestamp0 (fromisoformat (PyStr.replace "Z" "+00:00" s)).
Proof. destruct s; [done|]. intros _. unfold parse_time. by destruct (fromisoformat _). Qed.

(** [parse_time] on a [str] or [None]: the text is read by [fromisoformat]
    with each [Z] read as [+00:00]; an absent or empty text, and a text
    [fromisoformat] refuses, give the naive local reading of instant 0. *)
Lemma parse_time_of_text `{PyDatetime} :
  (∀ s, parse_time (Some (s +:+ "Z")) = parse_time (Some (s +:+ "+00:00")))
  ∧ (∀ s t, PyStr.contains "Z" s = false →
            fromisoformat (s +:+ "+00:00") = Some t →
            parse_time (Some (s +:+ "Z")) = t)
  ∧ (∀ s t, s ≠ "" → PyStr.contains "Z" s = false → fromisoformat s = Some t →
            parse_time (Some s) = t)
  ∧ parse_time None = fromtimestamp0
  ∧ parse_time (Some "") = fromtimestamp0
  ∧ (∀ s, fromisoformat (PyStr.replace "Z" "+00:00" s) = None →
          parse_time (Some s) = fromtimestamp0)
  ∧ dt_wall fromtimestamp0 = local_epoch ∧ dt_utcoffset fromtimestamp0 = None.
Proof.
  assert (Hz : ∀ s, PyStr.replace "Z" "+00:00" (s +:+ "Z")
                    = PyStr.replace "Z" "+00:00" (s +:+ "+00:00")).
  { intros s. by rewrite !replace_char_app. }
  repeat apply conj; try reflexivity.
  - intros s. rewrite !parse_time_nonempty by (by apply app_not_empty). by rewrite Hz.
  - intros s t Hs Ht. rewrite parse_time_nonempty by (by apply app_not_empty).
    rewrite Hz, replace_char_app, (replace_char_absent _ _ _ Hs).
    change (PyStr.replace "Z" "+00:00" "+00:00") with "+00:00". by rewrite Ht.
  - intros s t Hne Hs Ht. rewrite parse_time_nonempty by done.
    by rewrite (replace_char_absent _ _ _ Hs), Ht.
  - intros s Hs. destruct s; [done|]. unfold parse_time. by rewrite Hs.
Qed.

(** The time of the event, by the type of the record's time value, for a
    record whose id reads as the integer [n]: a [str] is parsed as it is, a
    dict through its "DateTime" entry, anything else counts as absent; and a
    "DateTime" entry that is true and no [str] makes [normalize_event]
    raise. *)
Lemma time_field_resolution `{PyDatetime} (raw : Wide.RawRecord) (n : Z) :
  Wide.py_int (Wide.Id raw) = Ok n →
  (∀ s, Wide.TimeCreated raw = OStr s →
        ∃ e, Wide.normalize_event raw = Ok (Some e)
             ∧ time_created e = parse_time (Some s))
  ∧ (∀ entries s, Wide.TimeCreated raw = ODict entries →
        Wide.dict_get entries "DateTime" = OStr s →
        ∃ e, Wide.normalize_event raw = Ok (Some e)
             ∧ time_created e = parse_time (Some s))
  ∧ (∀ entries, Wide.TimeCreated raw = ODict entries →
        Wide.truth (Wide.dict_get entries "DateTime") = false →
        ∃ e, Wide.normalize_event raw = Ok (Some e)
             ∧ time_created e = fromtimestamp0)
  ∧ ((∀ s, Wide.TimeCreated raw ≠ OStr s) →
     (∀ entries, Wide.TimeCreated raw ≠ ODict entries) →
        ∃ e, Wide.normalize_event raw = Ok (Some e)
             ∧ time_created e = fromtimestamp0)
  ∧ (∀ entries, Wide.TimeCreated raw = ODict entries →
        Wide.truth (Wide.dict_get entries "DateTime") = true →
        (∀ s, Wide.dict_get entries "DateTime" ≠ OStr s) →
        Wide.normalize_event raw = Raise AttributeError).
Proof.
  intros Hid.
  assert (Hev : ∀ t, Wide.parse_time (Wide.time_created_raw raw) = Ok t →
                     ∃ e, Wide.normalize_event raw = Ok (Some e) ∧ time_created e = t).
  { intros t Ht. destruct (wide_normalize_event_Ok _ _ _ Hid Ht) as (e & He & _ & Htime & _).
    by exists e. }
  repeat apply conj.
  - intros s Hs. apply Hev. unfold Wide.time_created_raw. rewrite Hs.
    apply wide_parse_time_str.
  - intros entries s Hd Hs. apply Hev. unfold Wide.time_created_raw. rewrite Hd, Hs.
    apply wide_parse_time_str.
  - intros entries Hd Hf. apply Hev. unfold Wide.time_created_raw. rewrite Hd.
    by apply wide_parse_time_false.
  - intros Hs Hd. apply Hev. unfold Wide.time_created_raw.
    destruct (Wide.TimeCreated raw) as [|b|k|x|s|l|d]; try done.
    + by destruct (Hs s).
    + by destruct (Hd d).
  - intros entries Hd Ht Hs. unfold Wide.normalize_event. rewrite Hid.
    unfold Wide.time_created_raw. rewrite Hd.
    assert (Hr : Wide.parse_time (Wide.dict_get entries "DateTime") = Raise AttributeError)
      by (by apply wide_parse_time_Raise).
    by rewrite Hr.
Qed.

(** C7: the time value of a raw record can make [normalize_event] fail.  A
    dict whose "DateTime" entry is a number reaches [parse_time] as that
    number; [parse_time] calls [value.replace] on it and raises
    [AttributeError], which its [except ValueError] clause lets through, so
    [normalize_event] raises and there is no fall back to instant 0.  The
    number 0, being false, does fall back. *)
Theorem C7_time_field_raises `{PyDatetime} :
  Wide.time_created_raw raw_numeric_datetime = OInt 1709287200
  ∧ Wide.parse_time (OInt 1709287200) = Raise AttributeError
  ∧ Wide.normalize_event raw_numeric_datetime = Raise AttributeError
  ∧ Wide.parse_time (OInt 0) = Ok fromtimestamp0
  ∧ Wide.parse_time ONone = Ok fromtimestamp0.
Proof. repeat split. Qed.

(** ** Collection *)

Section Collection.
Context `{PyDatetime}.

Lemma elem_of_survivors (hide : bool) (ids_filter : option (gset Z))
    (raw_events : list RawRecord) (e : SecurityEvent) :
  e ∈ survivors hide ids_filter raw_events
  ↔ e ∈ normalized_events raw_events
    ∧ ¬ (hide = true ∧ is_system_logon e) ∧ passes_ids ids_filter e.
Proof. unfold survivors. rewrite list_elem_of_filter, kept_spec. tauto. Qed.

Lemma passes_ids_allowed (important_only : bool) (event_ids : option (list Z))
    (e : SecurityEvent) :
  passes_ids (ids_filter_of important_only event_ids) e
  ↔ id_allowed important_only event_ids (event_id e).
Proof.
unfold passes_ids, ids_filter_of, id_allowed, IMPORTANT_EVENT_IDS.
destruct important_only; cbn [andb].
2: { split; [done|]. intros _ ids. discriminate. }
assert (Hsome : ∀ (s : gset Z) (P : Prop),
           (∀ ids, Some s = Some ids → event_id e ∈ ids) ↔ event_id e ∈ s).
{ intros s _. split; [intros Hs; by apply Hs|]. by intros Hs ids [= <-]. }
destruct event_ids as [[|x ids]|]; cbn [ids_given default].
- rewrite (Hsome _ True). apply elem_of_dom.
- rewrite (Hsome _ True). apply (elem_of_list_to_set (C := gset Z)).
- rewrite (Hsome _ True). apply elem_of_dom.
Qed.

Lemma collect_events_elem_of (h : Host) (log_name : string) (max_events : Z)
    (important_only : bool) (event_ids : option (list Z)) (hide : bool)
    (raw_events : list RawRecord) (evs : list SecurityEvent) (e : SecurityEvent) :
  get_raw_events h log_name max_events = Ok raw_events →
  collect_events h log_name max_events important_only event_ids hide = Ok evs →
  e ∈ evs ↔ e ∈ survivors hide (ids_filter_of important_only event_ids) raw_events.
Proof.
  intros Hraw (_ & raws & Hraws & Hsort)%collect_events_Ok.
  rewrite Hraw in Hraws. injection Hraws as <-.
  by rewrite (list_sort_reverse_perm _ _ _ Hsort).
Qed.

(** [collect_events] returns when the platform is Windows, the source
    returns, and the time stamps of the kept events are all naive or all
    aware; it raises [TypeError] when the source returns and they are not. *)
Lemma collect_events_returns (h : Host) (log_name : string) (max_events : Z)
    (important_only : bool) (event_ids : option (list Z)) (hide : bool)
    (raw_events : list RawRecord) :
  is_windows h = true →
  get_raw_events h log_name max_events = Ok raw_events →
  one_kind (survivors hide (ids_filter_of important_only event_ids) raw_events) →
  ∃ evs, collect_events h log_name max_events important_only event_ids hide = Ok evs.
Proof.
  intros Hwin Hraw Hkind.
  destruct (list_sort_reverse_returns time_created _ Hkind) as [evs Hevs].
  exists evs. apply collect_events_Ok. split; [done|]. by exists raw_events.
Qed.

Lemma collect_events_raises (h : Host) (log_name : string) (max_events : Z)
    (important_only : bool) (event_ids : option (list Z)) (hide : bool)
    (raw_events : list RawRecord) :
  is_windows h = true →
  get_raw_events h log_name max_events = Ok raw_events →
  ¬ one_kind (survivors hide (ids_filter_of important_only event_ids) raw_events) →
  collect_events h log_name max_events important_only event_ids hide = Raise TypeError.
Proof.
  intros Hwin Hraw Hkind. unfold collect_events. rewrite Hwin, Hraw. cbn.
  rewrite collect_loop_eq. cbn. by apply list_sort_reverse_raises.
Qed.

(** C1, amended: with [hide_system_logons] set, no event with id 4624
    whose message contains "S-1-5-18 SYSTEM NT AUTHORITY", case ignored,
    is in the result of [collect_events]; with the flag clear, such an
    event is in the result as soon as it passes the ID filter. *)
Theorem C1_system_logon_hidden (h : Host) (log_name : string) (max_events : Z)
    (important_only : bool) (event_ids : option (list Z))
    (raw_events : list RawRecord) (e : SecurityEvent) :
  get_raw_events h log_name max_events = Ok raw_events →
  e ∈ normalized_events raw_events →
  event_id e = 4624 →
  contains_ci "S-1-5-18 SYSTEM NT AUTHORITY" (message e) →
  (∀ evs, collect_events h log_name max_events important_only event_ids true = Ok evs →
          e ∉ evs)
  ∧ (∀ evs, collect_events h log_name max_events important_only event_ids false = Ok evs →
            passes_ids (ids_filter_of important_only event_ids) e → e ∈ evs).
Proof.
  intros Hraw He Hid Hmsg.
  assert (Hsys : is_system_logon e).
  { split; [done|]. apply contains_lower_ci. by apply contains_lower_ci in Hmsg. }
  split; intros evs Hevs;
    rewrite (collect_events_elem_of _ _ _ _ _ _ _ _ _ Hraw Hevs), elem_of_survivors.
  - intros (_ & Hno & _). by apply Hno.
  - intros Hpass. split; [done|]. split; [|done]. by intros [? _].
Qed.

(** C2: with [important_only] and a non-empty list of explicit ids the
    ID filter is the set of those ids; with [important_only] and no
    explicit ids it is the key set of the rule table; without
    [important_only] there is no ID filter.  An event is in the result
    exactly when it survives the pipeline run without ID filter and its id
    is allowed in that sense; so with explicit ids [4625] an event with id
    4624 is left out although the rule table has 4624. *)
Theorem C2_id_filter (h : Host) (log_name : string) (max_events : Z)
    (important_only : bool) (event_ids : option (list Z)) (hide : bool)
    (raw_events : list RawRecord) (evs : list SecurityEvent) (e : SecurityEvent) :
  get_raw_events h log_name max_events = Ok raw_events →
  collect_events h log_name max_events important_only event_ids hide = Ok evs →
  (e ∈ evs ↔ e ∈ survivors hide None raw_events
             ∧ id_allowed important_only event_ids (event_id e))
  ∧ (∀ x ids, ids_filter_of true (Some (x :: ids)) = Some (list_to_set (x :: ids)))
  ∧ ids_filter_of true None = Some (dom EVENT_RULES)
  ∧ ids_filter_of true (Some []) = Some (dom EVENT_RULES)
  ∧ ids_filter_of false event_ids = None
  ∧ ¬ id_allowed true (Some [4625]) 4624
  ∧ id_allowed true None 4624.
Proof.
  intros Hraw Hevs. split; [|split; [|split; [|split; [|split; [|split]]]]].
  - rewrite (collect_events_elem_of _ _ _ _ _ _ _ _ _ Hraw Hevs), !elem_of_survivors.
    rewrite passes_ids_allowed.
    assert (Hnone : passes_ids None e) by (intros ids; discriminate).
    tauto.
  - reflexivity.
  - reflexivity.
  - reflexivity.
  - unfold ids_filter_of. by destruct (ids_given event_ids).
  - unfold id_allowed. intros Hin. apply list_elem_of_singleton in Hin. discriminate.
  - unfold id_allowed. vm_compute. eexists. reflexivity.
Qed.

(** C8: with [hide_system_logons] set, [collect_events] leaves out of the
    result exactly the events that have id 4624 and a message that
    contains "s-1-5-18 system nt authority", case ignored: an event is in
    the result if and only if it is in the list the pipeline keeps without
    the rule and is not of that kind.  With the flag clear the rule removes
    nothing. *)
Theorem C8_suppression_rule (h : Host) (log_name : string) (max_events : Z)
    (important_only : bool) (event_ids : option (list Z))
    (raw_events : list RawRecord) (e : SecurityEvent) :
  get_raw_events h log_name max_events = Ok raw_events →
  let kept_without_rule :=
    survivors false (ids_filter_of important_only event_ids) raw_events in
  (∀ evs, collect_events h log_name max_events important_only event_ids true = Ok evs →
     (e ∈ evs ↔ e ∈ kept_without_rule
                ∧ ¬ (event_id e = 4624
                     ∧ contains_ci "s-1-5-18 system nt authority" (message e))))
  ∧ (∀ evs, collect_events h log_name max_events important_only event_ids false = Ok evs →
       (e ∈ evs ↔ e ∈ kept_without_rule)).
Proof.
  intros Hraw kept_without_rule. subst kept_without_rule.
  split; intros evs Hevs;
    rewrite (collect_events_elem_of _ _ _ _ _ _ _ _ _ Hraw Hevs), !elem_of_survivors;
    unfold is_system_logon, SYSTEM_LOGON_SIGNATURE; naive_solver.
Qed.
End Collection.

(** ** Ordering of the result *)

Section Ordering.
Context `{PyDatetime}.

Lemma sorted_result (pre evs : list SecurityEvent) :
  list_sort_reverse dt_lt time_created pre = Ok evs →
  sorted_descending evs ∧ same_order_on_ties pre evs ∧ evs ≡ₚ pre.
Proof.
  intros Hsort. split; [|split].
  - by apply (list_sort_reverse_sorted time_created pre).
  - intros t. by apply (list_sort_reverse_ties time_created).
  - by apply (list_sort_reverse_perm time_created).
Qed.

(** C3: the sequence [collect_events] returns, and the one the demo
    loader returns, is sorted by [time_created], most recent first, and
    events with equal time stamps keep the order in which they were
    retrieved; each call returns whenever its source does and the time
    stamps of the events are all naive or all aware. *)
Theorem C3_sorted_most_recent_first (h : Host) (log_name : string) (max_events : Z)
    (important_only : bool) (event_ids : option (list Z)) (hide : bool)
    (path : string) :
  (∀ raw_events evs,
      get_raw_events h log_name max_events = Ok raw_events →
      collect_events h log_name max_events important_only event_ids hide = Ok evs →
      let retrieved := survivors hide (ids_filter_of important_only event_ids) raw_events in
      sorted_descending evs ∧ same_order_on_ties retrieved evs ∧ evs ≡ₚ retrieved)
  ∧ (∀ elements evs,
      parse_events h path = Ok elements →
      load_events_from_demo_xml h path = Ok evs →
      let retrieved := omap demo_event elements in
      sorted_descending evs ∧ same_order_on_ties retrieved evs ∧ evs ≡ₚ retrieved)
  ∧ (∀ raw_events,
      is_windows h = true →
      get_raw_events h log_name max_events = Ok raw_events →
      one_kind (survivors hide (ids_filter_of important_only event_ids) raw_events) →
      ∃ evs, collect_events h log_name max_events important_only event_ids hide = Ok evs)
  ∧ (∀ elements,
      parse_events h path = Ok elements →
      one_kind (omap demo_event elements) →
      ∃ evs, load_events_from_demo_xml h path = Ok evs).
Proof.
  split; [|split; [|split]].
  - intros raws evs Hraw (_ & raws' & Hraws' & Hsort)%collect_events_Ok.
    rewrite Hraw in Hraws'. injection Hraws' as <-. by apply sorted_result.
  - intros els evs Hels (els' & Hels' & Hsort)%load_events_from_demo_xml_Ok.
    rewrite Hels in Hels'. injection Hels' as <-. by apply sorted_result.
  - intros raws. apply collect_events_returns.
  - intros els Hels Hkind.
    destruct (list_sort_reverse_returns time_created _ Hkind) as [evs Hevs].
    exists evs. apply load_events_from_demo_xml_Ok. by exists els.
Qed.

(** X21: the record normalizer leaves no line feed in a message: it turns
    each CR LF pair and each other LF into one blank. *)
Lemma normalize_event_message (raw : RawRecord) (e : SecurityEvent) :
  normalize_event raw = Ok (Some e) →
  message e = collapse_newlines (str_or_empty (Message raw))
  ∧ PyStr.contains LF (message e) = false.
Proof.
  rewrite normalize_event_eq. destruct (py_int (Id raw)) as [n|]; [|done].
  intros [= <-]. cbn [message event_of]. split.
  - apply replace_newlines_collapse.
  - apply replace_LF_no_LF.
Qed.
End Ordering.

(** ** Worked examples *)

Example normalized_samples :
  normalized_events [raw_system_logon; raw_domain_style_logon; raw_process; raw_logon; raw_late_logon]
  = [ev_system_logon; ev_domain_style_logon; ev_process; ev_logon; ev_late_logon].
Proof. vm_compute. reflexivity. Qed.

(** The scenario of the specification: most recent first. *)
Example collect_sorts :
  collect_events (sample_host [raw_logon; raw_domain_style_logon; raw_process] [])
                 "Security" 500 true None false
  = Ok [ev_process; ev_logon; ev_domain_style_logon].
Proof. vm_compute. reflexivity. Qed.

(** Equal time stamps: the earlier record stays first. *)
Example collect_is_stable :
  collect_events (sample_host [raw_logon; raw_process; raw_late_logon] [])
                 "Security" 500 true None false
  = Ok [ev_process; ev_logon; ev_late_logon].
Proof. vm_compute. reflexivity. Qed.

Example collect_needs_windows :
  collect_events {| is_windows := false; get_raw_events := λ _ _, Ok [raw_logon];
                    parse_events := λ _, Ok [] |}
                 "Security" 500 true None false
  = Raise RuntimeError.
Proof. reflexivity. Qed.

(** C1, as first stated, fails: with [hide_system_logons] set, an event
    with id 4624 whose message is "S-1-5-18 NT AUTHORITY\SYSTEM" is in the
    result. *)
Lemma C1_domain_style_logon_kept :
  collect_events (sample_host [raw_domain_style_logon] []) "Security" 500 true None true
  = Ok [ev_domain_style_logon]
  ∧ event_id ev_domain_style_logon = 4624
  ∧ contains_ci "S-1-5-18 NT AUTHORITY\SYSTEM" (message ev_domain_style_logon).
Proof.
  split; [vm_compute; reflexivity|]. split; [reflexivity|].
  apply contains_lower_ci. vm_compute. reflexivity.
Qed.

Lemma C1_witness :
  (∀ evs, collect_events (sample_host [raw_system_logon; raw_process] [])
                         "Security" 500 true None true = Ok evs →
          ev_system_logon ∉ evs)
  ∧ (∀ evs, collect_events (sample_host [raw_system_logon; raw_process] [])
                           "Security" 500 true None false = Ok evs →
            passes_ids (ids_filter_of true None) ev_system_logon →
            ev_system_logon ∈ evs).
Proof.
  apply (C1_system_logon_hidden
           (sample_host [raw_system_logon; raw_process] [])
           "Security" 500 true None
           [raw_system_logon; raw_process] ev_system_logon).
  - reflexivity.
  - apply list_elem_of_In. vm_compute. left. reflexivity.
  - reflexivity.
  - apply contains_lower_ci. vm_compute. reflexivity.
Defined.

(** With the flag set the logon of Local System is dropped; with the flag
    clear it is kept. *)
Example system_logon_hidden :
  collect_events (sample_host [raw_system_logon; raw_process] []) "Security" 500 true None true
  = Ok [ev_process]
  ∧ collect_events (sample_host [raw_system_logon; raw_process] []) "Security" 500 true None false
    = Ok [ev_process; ev_system_logon].
Proof. split; vm_compute; reflexivity. Qed.

Lemma C2_witness :
  (ev_logon ∈ [ev_failure]
   ↔ ev_logon ∈ survivors false None [raw_logon; raw_failure]
     ∧ id_allowed true (Some [4625]) (event_id ev_logon))
  ∧ (∀ x ids, ids_filter_of true (Some (x :: ids)) = Some (list_to_set (x :: ids)))
  ∧ ids_filter_of true None = Some (dom EVENT_RULES)
  ∧ ids_filter_of true (Some []) = Some (dom EVENT_RULES)
  ∧ ids_filter_of false (Some [4625]) = None
  ∧ ¬ id_allowed true (Some [4625]) 4624
  ∧ id_allowed true None 4624.
Proof.
  apply (C2_id_filter (sample_host [raw_logon; raw_failure] [])
                      "Security" 500 true (Some [4625]) false
                      [raw_logon; raw_failure] [ev_failure] ev_logon).
  - reflexivity.
  - vm_compute. reflexivity.
Defined.

(** The example of the specification: explicit ids [4625] leave the 4624
    event out, no explicit ids let it in. *)
Example explicit_ids_take_precedence :
  collect_events (sample_host [raw_logon; raw_failure] []) "Security" 500
                 true (Some [4625]) false
  = Ok [ev_failure]
  ∧ collect_events (sample_host [raw_logon; raw_failure] []) "Security" 500
                   true None false
    = Ok [ev_failure; ev_logon]
  ∧ collect_events (sample_host [raw_logon; raw_failure] []) "Security" 500
                   true (Some []) false
    = Ok [ev_failure; ev_logon].
Proof. repeat split; vm_compute; reflexivity. Qed.

Lemma C8_witness :
  let kept_without_rule :=
    survivors false (ids_filter_of true None) [raw_system_logon; raw_process] in
  (∀ evs, collect_events (sample_host [raw_system_logon; raw_process] [])
                         "Security" 500 true None true = Ok evs →
     (ev_system_logon ∈ evs
      ↔ ev_system_logon ∈ kept_without_rule
        ∧ ¬ (event_id ev_system_logon = 4624
             ∧ contains_ci "s-1-5-18 system nt authority" (message ev_system_logon))))
  ∧ (∀ evs, collect_events (sample_host [raw_system_logon; raw_process] [])
                           "Security" 500 true None false = Ok evs →
       (ev_system_logon ∈ evs ↔ ev_system_logon ∈ kept_without_rule)).
Proof.
  apply (C8_suppression_rule (sample_host [raw_system_logon; raw_process] [])
                             "Security" 500 true None
                             [raw_system_logon; raw_process] ev_system_logon).
  reflexivity.
Defined.

Lemma C3_witness :
  let retrieved :=
    survivors false (ids_filter_of true None) [raw_logon; raw_process; raw_late_logon] in
  sorted_descending [ev_process; ev_logon; ev_late_logon]
  ∧ same_order_on_ties retrieved [ev_process; ev_logon; ev_late_logon]
  ∧ [ev_process; ev_logon; ev_late_logon] ≡ₚ retrieved.
Proof.
  apply (proj1 (C3_sorted_most_recent_first
                  (sample_host [raw_logon; raw_process; raw_late_logon] [])
                  "Security" 500 true None false "demo_incident.xml")
               [raw_logon; raw_process; raw_late_logon]).
  - reflexivity.
  - vm_compute. reflexivity.
Defined.

(** C4 fails on the demo loader: the event it builds from an element whose
    message has two lines keeps the line feed, where [normalize_event] would
    have put a blank. *)
Theorem C4_demo_message_keeps_line_feed :
  load_events_from_demo_xml (sample_host [] [demo_two_lines]) "demo_incident.xml"
  = Ok [ev_two_lines]
  ∧ PyStr.contains LF (message ev_two_lines) = true
  ∧ message ev_two_lines ≠ collapse_newlines (message ev_two_lines).
Proof. split; [|split]; [vm_compute; reflexivity..|]. vm_compute. discriminate. Qed.

(** C5 fails: two records that both normalize, one with a time stamp in
    UTC and one with a text that is no time stamp, make [collect_events]
    raise [TypeError] from the sort; the demo loader does the same with an
    element that has no time stamp. *)
Theorem C5_mixed_time_stamps_raise :
  normalized_events [raw_utc; raw_garbled_time] = [ev_utc; ev_garbled_time]
  ∧ time_created ev_garbled_time = fromtimestamp0
  ∧ collect_events (sample_host [raw_utc; raw_garbled_time] []) "Security" 500
                   false None false
    = Raise TypeError
  ∧ load_events_from_demo_xml (sample_host [] [demo_two_lines; demo_no_time])
                              "demo_incident.xml"
    = Raise TypeError.
Proof. repeat split; vm_compute; reflexivity. Qed.

(** [list.sort(key=..., reverse=True)] on keys 1 2 1 2 1: the two 2s come
    first, both groups in their original order. *)
Example sort_sample :
  list_sort_reverse dt_lt (λ p : Z * string, mk_datetime p.1 None)
                    [(1, "a"); (2, "b"); (1, "c"); (2, "d"); (1, "e")]
  = Ok [(2, "b"); (2, "d"); (1, "a"); (1, "c"); (1, "e")].
Proof. reflexivity. Qed.

Example lower_sample : PyStr.lower "S-1-5-18 NT Authority" = "s-1-5-18 nt authority".
Proof. reflexivity. Qed.

Example replace_sample : PyStr.replace "Z" "+00:00" "aZbZZ" = "a+00:00b+00:00+00:00".
Proof. reflexivity. Qed.

Example split_sample :
  PyStr.split "," "a,b,,c" = ["a"; "b"; ""; "c"] ∧ PyStr.split "," "" = [""].
Proof. split; reflexivity. Qed.

Example int_of_str_samples :
  PyStr.int_of_str <$> [" 12 "; "+12"; "-12"; "- 12"; "1_2"; "_12"; "12_"; "1__2";
                        "0x10"; ""; "007"; "-0"]
  = [Some 12; Some 12; Some (-12); None; Some 12; None; None; None; None; None;
     Some 7; Some 0].
Proof. reflexivity. Qed.

Example parse_time_samples :
  parse_time (Some "2024-01-01T00:00:00Z") = mk_datetime 1704067200000000 (Some 0)
  ∧ parse_time (Some "1970-01-02T00:00:01+01:00") = mk_datetime 86401000000 (Some 3600000000)
  ∧ parse_time (Some "2024-02-30T00:00:00") = fromtimestamp0
  ∧ parse_time (Some "yesterday") = fromtimestamp0.
Proof. repeat split; vm_compute; reflexivity. Qed.

Example level_samples :
  normalize_level_name " Warn " = "warning"
  ∧ normalize_level_name "WARNING" = "warning"
  ∧ normalize_level_name "CRITICAL" = "critical"
  ∧ normalize_level_name "notice" = "info".
Proof. repeat split; vm_compute; reflexivity. Qed.

Example categorize_samples :
  categorize_event 4625 = "Logon failure" ∧ categorize_event 999999 = "Other".
Proof. split; vm_compute; reflexivity. Qed.

Example parse_event_ids_samples :
  parse_event_ids (Some " 4624, x,, 4625 ,") = Ok (Some [4624; 4625])
  ∧ parse_event_ids (Some "abc, def") = Ok None.
Proof. split; vm_compute; reflexivity. Qed.

(** * Further properties of the code *)

(** ** The rule table *)

Lemma rules_never_other (id : Z) (rule : EventRule) :
  EVENT_RULES !! id = Some rule → rule_category rule ≠ "Other".
Proof.
  unfold EVENT_RULES. intros Hin%elem_of_list_to_map_2.
  repeat (apply elem_of_cons in Hin as [[= -> ->]|Hin]; [by cbn|]).
  by apply elem_of_nil in Hin.
Qed.

(** X1: [categorize_event] answers "Other" exactly for the ids that are
    not among the important event ids: every rule of the table names a
    category of its own. *)
Theorem categorize_other_iff (id : Z) :
  categorize_event id = "Other" ↔ id ∉ IMPORTANT_EVENT_IDS.
Proof.
  unfold categorize_event, IMPORTANT_EVENT_IDS. rewrite elem_of_dom.
  destruct (EVENT_RULES !! id) as [rule|] eqn:Hrule.
  - split; [intros Hcat; by apply rules_never_other in Hrule|].
    intros Hno. destruct Hno. by eexists.
  - split; [intros _ [? ?]; discriminate|done].
Qed.

(** ** Levels *)

Lemma normalize_level_canonical (s : string) :
  normalize_level_name s ∈ CANONICAL_LEVELS.
Proof.
  rewrite normalize_level_name_table. unfold normalize_level_spec.
  destruct (find _ LEVEL_SYNONYMS) as [p|] eqn:Hfind; [|set_solver].
  apply find_some in Hfind as [Hin _]. apply list_elem_of_In in Hin.
  unfold LEVEL_SYNONYMS, CANONICAL_LEVELS in *.
  repeat (apply elem_of_cons in Hin as [->|Hin]; [cbn [snd]; set_solver|]).
  by apply elem_of_nil in Hin.
Qed.

Lemma canonical_cases (x : string) :
  x ∈ CANONICAL_LEVELS →
  x = "debug" ∨ x = "info" ∨ x = "warning" ∨ x = "error" ∨ x = "critical".
Proof. unfold CANONICAL_LEVELS. rewrite !elem_of_cons, elem_of_nil. tauto. Qed.

Lemma rstrip_cons_nonempty (sp : ascii → bool) (c : ascii) (r : string) :
  sp c = false → PyStr.rstrip_with sp (String c r) = String c (PyStr.rstrip_with sp r).
Proof. intros Hc. cbn. rewrite Hc. by destruct (PyStr.rstrip_with sp r). Qed.

Lemma rstrip_idem (sp : ascii → bool) (s : string) :
  PyStr.rstrip_with sp (PyStr.rstrip_with sp s) = PyStr.rstrip_with sp s.
Proof.
  induction s as [|c s IH]; [done|]. cbn [PyStr.rstrip_with].
  destruct (PyStr.rstrip_with sp s) as [|c' r'] eqn:Hr.
  - destruct (sp c) eqn:Hc; [done|]. cbn. by rewrite Hc.
  - cbn [PyStr.rstrip_with] in *. rewrite IH. done.
Qed.

Lemma lstrip_head (sp : ascii → bool) (s : string) :
  match PyStr.lstrip_with sp s with
  | EmptyString => True
  | String c _ => sp c = false
  end.
Proof.
  induction s as [|c s IH]; [done|]. cbn. by destruct (sp c) eqn:Hc; [|cbn].
Qed.

Lemma strip_idem (sp : ascii → bool) (s : string) :
  PyStr.strip_with sp (PyStr.strip_with sp s) = PyStr.strip_with sp s.
Proof.
  unfold PyStr.strip_with. pose proof (lstrip_head sp s) as Hhead.
  destruct (PyStr.lstrip_with sp s) as [|c r]; [done|].
  rewrite rstrip_cons_nonempty by done. cbn [PyStr.lstrip_with]. rewrite Hhead.
  rewrite rstrip_cons_nonempty by done. by rewrite rstrip_idem.
Qed.

(** X2: [normalize_level_name] is idempotent, and it does not see the case
    of its input nor the white space around it. *)
Theorem normalize_level_idempotent (s : string) :
  normalize_level_name (normalize_level_name s) = normalize_level_name s
  ∧ normalize_level_name (PyStr.lower s) = normalize_level_name s
  ∧ normalize_level_name (PyStr.strip s) = normalize_level_name s.
Proof.
  split; [|split].
  - destruct (canonical_cases _ (normalize_level_canonical s))
      as [-> | [-> | [-> | [-> | ->]]]]; reflexivity.
  - unfold normalize_level_name. by rewrite <- lower_strip, lower_idem.
  - unfold normalize_level_name, PyStr.strip. by rewrite strip_idem.
Qed.

Lemma parse_levels_loop_elem (parts : list string) (result : gset string) (x : string) :
  x ∈ parse_levels_loop parts result
  ↔ x ∈ result ∨ ∃ part, part ∈ parts ∧ normalize_level_name part = x.
Proof.
  revert result. induction parts as [|p parts IH]; intros result; cbn [parse_levels_loop].
  - split; [by left|]. intros [?|(part & Hpart & _)]; [done|]. by apply elem_of_nil in Hpart.
  - rewrite IH, elem_of_union, elem_of_singleton. split.
    + intros [[Hx| ->]|(part & Hpart & Hx)].
      * by left.
      * right. exists p. split; [by left|done].
      * right. exists part. split; [by right|done].
    + intros [Hx|(part & [-> |Hpart]%elem_of_cons & Hx)].
      * left. by left.
      * left. by right.
      * right. by exists part.
Qed.

(** X3: [parse_levels] returns [None] for a missing text and for a text
    with no token; otherwise it returns a non-empty set that holds exactly
    the normalized tokens, all of them canonical levels, so a token that
    names no level selects "info". *)
Theorem parse_levels_canonical (value : option string) :
  (parse_levels value = None
   ↔ value = None ∨ ∃ s, value = Some s ∧ id_tokens s = [])
  ∧ (∀ levels, parse_levels value = Some levels →
       levels ≠ ∅
       ∧ (∀ x, x ∈ levels → x ∈ CANONICAL_LEVELS)
       ∧ ∃ s, value = Some s
              ∧ ∀ x, x ∈ levels
                     ↔ ∃ token, token ∈ id_tokens s ∧ normalize_level_name token = x).
Proof.
  assert (Hloop : ∀ s, parse_levels_loop (csv_parts s) ∅ = ∅ ↔ id_tokens s = []).
  { intros s. rewrite csv_parts_tokens. destruct (id_tokens s) as [|t ts]; [done|].
    split; [|done]. intros Hempty.
    assert (Hin : normalize_level_name t ∈ parse_levels_loop (t :: ts) ∅).
    { apply parse_levels_loop_elem. right. exists t. split; [by left|done]. }
    rewrite Hempty in Hin. by apply not_elem_of_empty in Hin. }
  assert (Hsome : ∀ s, parse_levels (Some s)
                       = if decide (parse_levels_loop (csv_parts s) ∅ = ∅) then None
                         else Some (parse_levels_loop (csv_parts s) ∅)).
  { intros [|c s]; [|done]. cbn. by rewrite decide_True. }
  split.
  - destruct value as [s|]; [|split; [by left|done]].
    rewrite Hsome. destruct (decide _) as [Hempty|Hne].
    + split; [|done]. intros _. right. exists s. split; [done|]. by apply Hloop.
    + split; [done|]. intros [?|(s' & [= <-] & Htok)]; [done|]. by apply Hloop in Htok.
  - intros levels. destruct value as [s|]; [|done].
    rewrite Hsome. destruct (decide _) as [Hempty|Hne]; [done|]. intros [= <-].
    assert (Helem : ∀ x, x ∈ parse_levels_loop (csv_parts s) ∅
                         ↔ ∃ token, token ∈ id_tokens s ∧ normalize_level_name token = x).
    { intros x. rewrite parse_levels_loop_elem, csv_parts_tokens. split.
      - intros [Hx|?]; [by apply not_elem_of_empty in Hx|done].
      - intros ?. by right. }
    split; [done|]. split; [|by exists s].
    intros x (token & _ & <-)%Helem. apply normalize_level_canonical.
Qed.

(** ** The level filter *)

Lemma filter_levels_loop_eq (allowed : gset string) (events filtered : list SecurityEvent) :
  filter_levels_loop allowed events filtered
  = filtered ++ filter (λ e, normalize_level_name (level e) ∈ allowed) events.
Proof.
  revert filtered. induction events as [|e events IH]; intros filtered.
  - cbn. by rewrite app_nil_r.
  - cbn [filter_levels_loop]. rewrite filter_cons.
    destruct (decide (normalize_level_name (level e) ∈ allowed)) as [Hin|Hout].
    + rewrite bool_decide_eq_true_2 by done. by rewrite IH, <- app_assoc.
    + rewrite bool_decide_eq_false_2 by done. apply IH.
Qed.

(** X4: without levels ([None] or the empty set) [filter_events_by_levels]
    returns the events unchanged; with levels it keeps, in their order,
    exactly the events whose normalized level is one of them, so an event
    with an unknown level passes a filter that allows "info". *)
Theorem filter_events_by_levels_keeps (events : list SecurityEvent)
    (levels : option (gset string)) :
  (levels = None ∨ levels = Some ∅ → filter_events_by_levels events levels = events)
  ∧ (∀ allowed, levels = Some allowed → allowed ≠ ∅ →
       filter_events_by_levels events levels
       = filter (λ e, normalize_level_name (level e) ∈ allowed) events)
  ∧ filter_events_by_levels events levels `sublist_of` events
  ∧ (∀ allowed e, levels = Some allowed → "info" ∈ allowed → e ∈ events →
       PyStr.strip (PyStr.lower (level e)) ∉ LEVEL_SYNONYMS.*1 →
       e ∈ filter_events_by_levels events levels).
Proof.
  assert (Hsome : ∀ allowed, allowed ≠ ∅ →
            filter_events_by_levels events (Some allowed)
            = filter (λ e, normalize_level_name (level e) ∈ allowed) events).
  { intros allowed Hne. unfold filter_events_by_levels.
    rewrite decide_False by done. by rewrite filter_levels_loop_eq. }
  split; [|split; [|split]].
  - intros [-> | ->]; [done|]. unfold filter_events_by_levels. by rewrite decide_True.
  - intros allowed -> Hne. by apply Hsome.
  - destruct levels as [allowed|]; [|done].
    destruct (decide (allowed = ∅)) as [->|Hne].
    + unfold filter_events_by_levels. by rewrite decide_True.
    + rewrite Hsome by done. apply sublist_filter.
  - intros allowed e -> Hinfo He Hunknown.
    assert (Hne : allowed ≠ ∅) by set_solver.
    rewrite Hsome by done. apply list_elem_of_filter. split; [|done].
    rewrite normalize_level_name_table. unfold normalize_level_spec.
    rewrite find_synonym_miss; [done|].
    apply Forall_forall. intros p Hp Heq. apply Hunknown.
    apply list_elem_of_fmap. by exists p.
Qed.

Lemma sorted_descending_filter (P : SecurityEvent → Prop) `{∀ e, Decision (P e)}
    (events : list SecurityEvent) :
  sorted_descending events → sorted_descending (filter P events).
Proof.
  unfold sorted_descending. induction 1 as [|e l Hl IH He]; [constructor|].
  rewrite filter_cons. destruct (decide (P e)); [|done].
  constructor; [done|]. rewrite Forall_forall in *.
  intros x [_ Hx]%list_elem_of_filter. by apply He.
Qed.

(** X5: [filter_events_by_levels] keeps the order of its input: a list
    sorted most recent first stays sorted, so what [main] shows after the
    level filter is still in the order [collect_events] returned. *)
Theorem filter_events_by_levels_sorted (events : list SecurityEvent)
    (levels : option (gset string)) :
  sorted_descending events →
  sorted_descending (filter_events_by_levels events levels).
Proof.
  intros Hsorted. unfold filter_events_by_levels.
  destruct levels as [allowed|]; [|done].
  destruct (decide (allowed = ∅)); [done|].
  rewrite filter_levels_loop_eq. by apply sorted_descending_filter.
Qed.

(** X6: filtering twice by the same levels is filtering once, and a filter
    that allows all five canonical levels removes nothing. *)
Theorem filter_events_by_levels_idempotent (events : list SecurityEvent)
    (levels : option (gset string)) :
  filter_events_by_levels (filter_events_by_levels events levels) levels
  = filter_events_by_levels events levels
  ∧ filter_events_by_levels events (Some (list_to_set CANONICAL_LEVELS)) = events.
Proof.
  split.
  - unfold filter_events_by_levels. destruct levels as [allowed|]; [|done].
    destruct (decide (allowed = ∅)); [done|].
    rewrite !filter_levels_loop_eq. cbn [app].
    apply list_filter_filter_l. done.
  - unfold filter_events_by_levels. rewrite decide_False.
    + rewrite filter_levels_loop_eq. cbn [app].
      induction events as [|e events IH]; [done|].
      rewrite filter_cons_True, IH; [done|].
      apply elem_of_list_to_set, normalize_level_canonical.
    + intros Hempty.
      assert (Hin : "info" ∈ (list_to_set CANONICAL_LEVELS : gset string)).
      { apply elem_of_list_to_set. unfold CANONICAL_LEVELS. set_solver. }
      rewrite Hempty in Hin. by apply not_elem_of_empty in Hin.
Qed.

(** ** Presentation helpers *)

Lemma str_take_length (n : nat) (s : string) :
  String.length (str_take n s) = Nat.min n (String.length s).
Proof.
  revert s. induction n as [|n IH]; intros [|c s]; cbn; try done. by rewrite IH.
Qed.

Lemma append_length (a b : string) :
  String.length (a +:+ b) = (String.length a + String.length b)%nat.
Proof. induction a as [|c a IH]; [done|]. rewrite app_cons_str. cbn. by rewrite IH. Qed.

Lemma truncate_length (text : string) (max_length : Z) :
  Z.of_nat (String.length text) > max_length →
  Z.of_nat (String.length (truncate text max_length))
  = Z.max 0 (if max_length - 3 <? 0
             then Z.of_nat (String.length text) + (max_length - 3)
             else max_length - 3) + 3.
Proof.
  intros Hlong. unfold truncate, py_slice_to.
  destruct (Z.leb_spec (Z.of_nat (String.length text)) max_length) as [?|_]; [lia|].
  rewrite append_length, str_take_length. cbn [String.length].
  destruct (Z.ltb_spec (max_length - 3) 0); lia.
Qed.

(** X7: for a limit of at least 3, [truncate] returns a text that is no
    longer than the limit: the text itself when it fits, and otherwise its
    first [max_length - 3] characters followed by three dots, which makes
    exactly [max_length] characters. *)
Theorem truncate_within_limit (text : string) (max_length : Z) :
  3 ≤ max_length →
  Z.of_nat (String.length (truncate text max_length)) ≤ max_length
  ∧ (Z.of_nat (String.length text) ≤ max_length → truncate text max_length = text)
  ∧ (Z.of_nat (String.length text) > max_length →
       truncate text max_length = str_take (Z.to_nat (max_length - 3)) text +:+ "..."
       ∧ Z.of_nat (String.length (truncate text max_length)) = max_length).
Proof.
  intros Hmax.
  assert (Hfits : Z.of_nat (String.length text) ≤ max_length →
                  truncate text max_length = text).
  { intros Hle. unfold truncate. by rewrite (proj2 (Z.leb_le _ _) Hle). }
  assert (Hcut : Z.of_nat (String.length text) > max_length →
                 truncate text max_length
                 = str_take (Z.to_nat (max_length - 3)) text +:+ "..."
                 ∧ Z.of_nat (String.length (truncate text max_length)) = max_length).
  { intros Hlong. split.
    - unfold truncate, py_slice_to.
      destruct (Z.leb_spec (Z.of_nat (String.length text)) max_length) as [?|_]; [lia|].
      by destruct (Z.ltb_spec (max_length - 3) 0) as [?|_]; [lia|].
    - rewrite truncate_length by done.
      destruct (Z.ltb_spec (max_length - 3) 0); lia. }
  split; [|done].
  destruct (Z.le_gt_cases (Z.of_nat (String.length text)) max_length) as [Hle|Hgt].
  - by rewrite Hfits.
  - destruct Hcut as [_ ->]; lia.
Qed.

(** X8: for a limit below 3, [truncate] makes a text that does not fit
    longer than the limit: the slice bound [max_length - 3] is negative and
    counts from the end, and the three dots are added all the same. *)
Theorem truncate_small_limit (text : string) (max_length : Z) :
  max_length < 3 →
  Z.of_nat (String.length text) > max_length →
  truncate text max_length
  = str_take (Z.to_nat (Z.of_nat (String.length text) + max_length - 3)) text +:+ "..."
  ∧ Z.of_nat (String.length (truncate text max_length)) > max_length
  ∧ 3 ≤ Z.of_nat (String.length (truncate text max_length)).
Proof.
  intros Hsmall Hlong. split.
  - unfold truncate, py_slice_to.
    destruct (Z.leb_spec (Z.of_nat (String.length text)) max_length) as [?|_]; [lia|].
    destruct (Z.ltb_spec (max_length - 3) 0) as [_|?]; [|lia].
    do 3 f_equal. lia.
  - rewrite truncate_length by done. lia.
Qed.

(** X9: without colour [color_for_event] returns the empty style; with
    colour it never does, its last [return ""] is never reached: it gives
    one of four styles, fixed by the canonical level of the event, with
    "error" and "critical" sharing one. *)
Theorem color_for_event_styles (event : SecurityEvent) (use_color : bool) :
  color_for_event event false = ""
  ∧ color_for_event event true
    ∈ ["bright_magenta"; "bright_cyan"; "bright_yellow"; "bright_red"]
  ∧ (color_for_event event use_color = "" ↔ use_color = false)
  ∧ (color_for_event event true = "bright_red"
     ↔ normalize_level_name (level event) = "error"
       ∨ normalize_level_name (level event) = "critical")
  ∧ (∀ other, normalize_level_name (level other) = normalize_level_name (level event) →
       color_for_event other use_color = color_for_event event use_color).
Proof.
  assert (Htrue : ∀ x, x ∈ CANONICAL_LEVELS →
    (if String.eqb x "debug" then "bright_magenta"
     else if String.eqb x "info" then "bright_cyan"
     else if String.eqb x "warning" then "bright_yellow"
     else if String.eqb x "error" then "bright_red"
     else if String.eqb x "critical" then "bright_red" else "")
    ∈ ["bright_magenta"; "bright_cyan"; "bright_yellow"; "bright_red"]).
  { intros x [-> | [-> | [-> | [-> | ->]]]]%canonical_cases; cbn; set_solver. }
  pose proof (normalize_level_canonical (level event)) as Hcanon.
  split; [done|]. split; [by apply Htrue|]. split; [|split].
  - destruct use_color; [|done]. split; [|done].
    intros Hempty. specialize (Htrue _ Hcanon).
    unfold color_for_event in Hempty. cbn [negb] in Hempty.
    rewrite Hempty in Htrue. set_solver.
  - unfold color_for_event. cbn [negb].
    destruct (canonical_cases _ Hcanon) as [-> | [-> | [-> | [-> | ->]]]]; cbn;
      split; intros; (done || tauto || naive_solver).
  - intros other Hsame. unfold color_for_event. by rewrite Hsame.
Qed.

(** ** The live reader *)

Section LiveReader.
Context (w : Live.Win32).

Local Abbreviation raw := (Live.raw_of_record w).

Lemma for_records_eq (max_events : Z) (records : list Live.EventLogRecord)
    (events : list RawRecord) (read_total : Z) :
  read_total < max_events →
  Live.for_records w max_events records events read_total
  = (events ++ (raw <$> take (Z.to_nat (max_events - read_total)) records),
     read_total
     + Z.of_nat (Nat.min (length records) (Z.to_nat (max_events - read_total)))).
Proof.
  revert events read_total.
  induction records as [|record rest IH]; intros events read_total Hlt.
  - cbn. rewrite take_nil, app_nil_r. f_equal. lia.
  - cbn [Live.for_records].
    replace (Z.to_nat (max_events - read_total))
      with (S (Z.to_nat (max_events - (read_total + 1)))) by lia.
    cbn [take fmap list_fmap length].
    destruct (Z.geb_spec (read_total + 1) max_events) as [Hge|Hlt'].
    + replace (Z.to_nat (max_events - (read_total + 1))) with O by lia.
      rewrite take_0. f_equal. lia.
    + rewrite IH by lia. rewrite <- app_assoc. f_equal. lia.
Qed.

Lemma while_reading_Ok (max_events : Z) (reads : list (exc (list Live.EventLogRecord)))
    (events : list RawRecord) (read_total : Z) (result : list RawRecord) :
  Live.while_reading w max_events reads events read_total = Ok result →
  result = events ++ (raw <$> take (Z.to_nat (max_events - read_total))
                                   (Live.reachable (Live.answered reads))).
Proof.
  revert events read_total result.
  induction reads as [|read reads IH]; intros events read_total result.
  - cbn. destruct (read_total <? max_events); intros [= <-];
      by rewrite take_nil, app_nil_r.
  - cbn [Live.while_reading].
    destruct (Z.ltb_spec read_total max_events) as [Hlt|Hge].
    2: { intros [= <-]. replace (Z.to_nat (max_events - read_total)) with O by lia.
         by rewrite take_0, app_nil_r. }
    destruct read as [[|record records]|e]; [| |done].
    { intros [= <-]. cbn. by rewrite take_nil, app_nil_r. }
    rewrite for_records_eq by done. intros Hrest%IH. rewrite Hrest. clear Hrest.
    cbn [Live.answered Live.reachable].
    rewrite <- app_assoc, <- fmap_app. do 2 f_equal.
    set (k := Z.to_nat (max_events - read_total)).
    set (batch := record :: records).
    rewrite take_app. f_equal. f_equal. lia.
Qed.

Lemma while_reading_returns (max_events : Z) (batches : list (list Live.EventLogRecord))
    (events : list RawRecord) (read_total : Z) :
  ∃ result, Live.while_reading w max_events (Ok <$> batches) events read_total = Ok result.
Proof.
  revert events read_total.
  induction batches as [|batch batches IH]; intros events read_total.
  - cbn. destruct (read_total <? max_events); by eexists.
  - cbn [fmap list_fmap Live.while_reading].
    destruct (read_total <? max_events); [|by eexists].
    destruct batch as [|record records]; [by eexists|].
    destruct (Live.for_records _ _ _ _ _) as [events' total']. apply IH.
Qed.

Lemma answered_Ok (batches : list (list Live.EventLogRecord)) :
  Live.answered (Ok <$> batches) = batches.
Proof. induction batches as [|b bs IH]; [done|]. cbn. by rewrite IH. Qed.

Lemma get_raw_events_Ok (log_name : string) (max_events : Z) (result : list RawRecord) :
  Live.get_raw_events w log_name max_events = Ok result →
  Live.on_windows w = true ∧ Live.pywin32 w = true
  ∧ ∃ reads, Live.OpenEventLog w log_name = Ok reads
             ∧ result = raw <$> take (Z.to_nat max_events)
                                     (Live.reachable (Live.answered reads)).
Proof.
  unfold Live.get_raw_events.
  destruct (Live.on_windows w); [|done]. destruct (Live.pywin32 w); [|done]. cbn.
  destruct (Live.OpenEventLog w log_name) as [reads|e]; [|done]. cbn.
  intros Hreads%while_reading_Ok. rewrite Z.sub_0_r in Hreads.
  split; [done|]. split; [done|]. by exists reads.
Qed.

(** X10: [get_raw_events] never returns more than [max_events] records,
    and none at all for a [max_events] of zero or less. *)
Theorem get_raw_events_at_most_max (log_name : string) (max_events : Z)
    (result : list RawRecord) :
  Live.get_raw_events w log_name max_events = Ok result →
  Z.of_nat (length result) ≤ Z.max 0 max_events.
Proof.
  intros (_ & _ & reads & _ & ->)%get_raw_events_Ok.
  rewrite length_fmap, length_take. lia.
Qed.

(** X11: on Windows with [pywin32], when the log opens and every call of
    [ReadEventLog] answers, [get_raw_events] returns the dictionaries of the
    first [max_events] records of the log, in the order read, where the log
    ends at the first empty answer. *)
Theorem get_raw_events_first_records (log_name : string) (max_events : Z)
    (batches : list (list Live.EventLogRecord)) :
  Live.on_windows w = true →
  Live.pywin32 w = true →
  Live.OpenEventLog w log_name = Ok (Ok <$> batches) →
  Live.get_raw_events w log_name max_events
  = Ok (raw <$> take (Z.to_nat max_events) (Live.reachable batches)).
Proof.
  intros Hwin Hpy Hopen.
  destruct (while_reading_returns max_events batches [] 0) as [result Hresult].
  assert (Hget : Live.get_raw_events w log_name max_events = Ok result).
  { unfold Live.get_raw_events. by rewrite Hwin, Hpy, Hopen. }
  rewrite Hget. f_equal.
  apply get_raw_events_Ok in Hget as (_ & _ & reads & Hreads & ->).
  rewrite Hopen in Hreads. injection Hreads as <-. by rewrite answered_Ok.
Qed.

Lemma while_reading_raises (max_events : Z) (batches : list (list Live.EventLogRecord))
    (e : exn) (rest : list (exc (list Live.EventLogRecord)))
    (events : list RawRecord) (read_total : Z) :
  Forall (λ batch, batch ≠ []) batches →
  read_total + Z.of_nat (length (concat batches)) < max_events →
  Live.while_reading w max_events ((Ok <$> batches) ++ Raise e :: rest) events read_total
  = Raise e.
Proof.
  intros Hne. revert events read_total.
  induction Hne as [|batch batches Hbatch _ IH]; intros events read_total Hlt.
  - cbn in *. by rewrite (proj2 (Z.ltb_lt _ _)) by lia.
  - cbn [fmap list_fmap app Live.while_reading concat] in *.
    rewrite length_app in Hlt.
    rewrite (proj2 (Z.ltb_lt _ _)) by lia.
    destruct batch as [|record records]; [done|].
    rewrite for_records_eq by lia. apply IH.
    set (batch := record :: records) in *. lia.
Qed.

(** X12: [get_raw_events] raises [RuntimeError] off Windows and without
    [pywin32], before it opens the log; an exception of [OpenEventLog] leaves
    it unchanged; and when a call of [ReadEventLog] raises before
    [max_events] records are read, the exception leaves [get_raw_events]
    and the records read so far are not returned. *)
Theorem get_raw_events_failures (log_name : string) (max_events : Z) :
  (Live.on_windows w = false ∨ Live.pywin32 w = false →
   Live.get_raw_events w log_name max_events = Raise RuntimeError)
  ∧ (∀ e, Live.on_windows w = true → Live.pywin32 w = true →
          Live.OpenEventLog w log_name = Raise e →
          Live.get_raw_events w log_name max_events = Raise e)
  ∧ (∀ batches e rest,
       Live.on_windows w = true → Live.pywin32 w = true →
       Live.OpenEventLog w log_name = Ok ((Ok <$> batches) ++ Raise e :: rest) →
       Forall (λ batch, batch ≠ []) batches →
       Z.of_nat (length (concat batches)) < max_events →
       Live.get_raw_events w log_name max_events = Raise e).
Proof.
  unfold Live.get_raw_events. split; [|split].
  - intros [-> | Hpy]; [done|]. rewrite Hpy. by destruct (Live.on_windows w).
  - intros e -> -> ->. done.
  - intros batches e rest -> -> -> Hne Hlt. cbn.
    by apply while_reading_raises.
Qed.
End LiveReader.

(** ** The live reader and the pipeline *)

Section LivePipeline.
Context `{PyDatetime} (w : Live.Win32).

Lemma land_16_bits (n : Z) : Z.land n 65535 = n mod 65536 ∧ 0 ≤ Z.land n 65535 < 65536.
Proof.
  change 65535 with (Z.ones 16). rewrite Z.land_ones by lia.
  change (2 ^ 16) with 65536. split; [done|]. apply Z.mod_pos_bound. lia.
Qed.

Lemma level_of_cases (level_type : Z) :
  Live.level_of w level_type ∈ ["Error"; "Warning"; "Information"].
Proof.
  unfold Live.level_of.
  repeat match goal with |- context [if ?b then _ else _] => destruct b end; set_solver.
Qed.

(** X13: every dictionary the live reader builds normalizes to an event:
    the id is the low 16 bits of [EventID], the level is "Error", "Warning"
    or "Information", which normalize to "error", "warning" and "info", and
    the message, the inserts joined by blanks, has its line feeds turned
    into blanks. *)
Theorem live_record_normalizes (record : Live.EventLogRecord) :
  ∃ e, normalize_event (Live.raw_of_record w record) = Ok (Some e)
       ∧ event_id e = Live.EventID record mod 65536
       ∧ 0 ≤ event_id e < 65536
       ∧ level e ∈ ["Error"; "Warning"; "Information"]
       ∧ normalize_level_name (level e) ∈ ["error"; "warning"; "info"]
       ∧ time_created e = parse_time (Some (Live.TimeGenerated record))
       ∧ message e
         = collapse_newlines (Live.join " " (default [] (Live.StringInserts record))).
Proof.
  eexists. split; [by rewrite normalize_event_eq|].
  destruct (land_16_bits (Live.EventID record)) as [Hmod Hrange].
  cbn [event_id level time_created message event_of Live.raw_of_record
       LevelDisplayName TimeCreated Message str_or_empty].
  split; [done|]. split; [done|]. split; [apply level_of_cases|].
  split; [|split; [done|apply replace_newlines_collapse]].
  pose proof (level_of_cases (Live.EventType record)) as Hlevel.
  rewrite !elem_of_cons, elem_of_nil in Hlevel.
  destruct Hlevel as [-> | [-> | [-> | []]]]; vm_compute; set_solver.
Qed.

Lemma length_omap_le {A B : Type} (f : A → option B) (l : list A) :
  (length (omap f l) ≤ length l)%nat.
Proof. induction l as [|x l IH]; cbn; [done|]. destruct (f x); cbn; lia. Qed.

Lemma normalized_live_length (records : list Live.EventLogRecord) :
  length (normalized_events (Live.raw_of_record w <$> records)) = length records.
Proof.
  unfold normalized_events. induction records as [|r records IH]; [done|].
  cbn [fmap list_fmap omap list_omap]. rewrite normalize_event_eq. cbn. by rewrite IH.
Qed.

Lemma survivors_unfiltered (event_ids : option (list Z)) (raw_events : list RawRecord) :
  survivors false (ids_filter_of false event_ids) raw_events = normalized_events raw_events.
Proof.
  unfold survivors, ids_filter_of. cbn [andb].
  induction (normalized_events raw_events) as [|e l IH]; [done|].
  by rewrite filter_cons_True, IH.
Qed.

(** X14: through the live reader, [collect_events] never returns more
    events than [get_raw_events] read, nor more than [max_events]; without
    [important_only] and without [hide_system_logons] it returns exactly as
    many, for no record of the live reader is dropped by normalization. *)
Theorem live_collect_count (elements : string → exc (list Element))
    (log_name : string) (max_events : Z) (important_only : bool)
    (event_ids : option (list Z)) (hide : bool) (evs : list SecurityEvent) :
  collect_events (live_host w elements) log_name max_events important_only event_ids hide
  = Ok evs →
  ∃ raw_events,
    Live.get_raw_events w log_name max_events = Ok raw_events
    ∧ (length evs ≤ length raw_events)%nat
    ∧ Z.of_nat (length evs) ≤ Z.max 0 max_events
    ∧ (important_only = false → hide = false → length evs = length raw_events).
Proof.
  intros (_ & raws & Hraws & Hsort)%collect_events_Ok. cbn in Hraws.
  exists raws. split; [done|].
  pose proof (list_sort_reverse_perm _ _ _ Hsort) as Hperm.
  apply Permutation_length in Hperm.
  pose proof Hraws as (_ & _ & reads & _ & Heq)%get_raw_events_Ok.
  assert (Hmax : Z.of_nat (length raws) ≤ Z.max 0 max_events).
  { rewrite Heq, length_fmap, length_take. lia. }
  assert (Hle : (length evs ≤ length raws)%nat).
  { rewrite Hperm. unfold survivors.
    etrans; [apply length_filter|]. apply length_omap_le. }
  split; [done|]. split; [lia|].
  intros -> ->. rewrite Hperm, survivors_unfiltered, Heq.
  by rewrite normalized_live_length, length_fmap.
Qed.
End LivePipeline.

(** ** The two ingestion paths *)

Section Paths.
Context `{PyDatetime}.

Lemma normalize_raw_of_element (element : Element) :
  normalize_event (raw_of_element element)
  = Ok (with_collapsed_message <$> demo_event element).
Proof.
  rewrite normalize_event_eq. unfold demo_event, raw_of_element. cbn [Id].
  destruct (findtext element "Id") as [t|]; [|done]. cbn [py_int mbind option_bind].
  unfold int_str. destruct (PyStr.int_of_str t) as [n|]; [|done].
  unfold event_of. rewrite replace_newlines_collapse.
  cbn [TimeCreated LevelDisplayName ProviderName MachineName Message].
  by destruct (findtext element "TimeCreated").
Qed.

(** X15: the demo loader and the record normalizer build the same event
    from the same fields, up to the message: [normalize_event] on the raw
    record of a demo element gives the event of the demo loader with the
    line feeds of its message turned into blanks, and drops the element
    exactly when the demo loader does. *)
Theorem demo_event_normalizes (element : Element) :
  demo_loop [element] [] = Ok (option_list (demo_event element))
  ∧ normalize_event (raw_of_element element)
    = Ok (with_collapsed_message <$> demo_event element).
Proof.
  split; [rewrite demo_loop_eq; cbn; by destruct (demo_event element)|].
  apply normalize_raw_of_element.
Qed.

Lemma collapse_no_LF (s : string) :
  PyStr.contains LF s = false → collapse_newlines s = s.
Proof.
  unfold LF. induction s as [|c r IH]; [done|].
  cbn [PyStr.contains PyStr.startswith collapse_newlines].
  rewrite (Ascii.eqb_sym c). destruct (Ascii.eqb (ascii_of_N 10) c) eqn:Hc; [done|].
  cbn [orb]. intros Hr. rewrite (IH Hr).
  destruct (Ascii.eqb c (ascii_of_N 13)); [|done].
  destruct r as [|c' r']; [done|].
  cbn [PyStr.contains PyStr.startswith] in Hr. rewrite (Ascii.eqb_sym c').
  destruct (Ascii.eqb (ascii_of_N 10) c'); [done|]. done.
Qed.

Lemma normalized_of_elements (elements : list Element) :
  Forall (λ el, PyStr.contains LF (str_or_empty (findtext el "Message")) = false)
         elements →
  normalized_events (raw_of_element <$> elements) = omap demo_event elements.
Proof.
  unfold normalized_events. induction 1 as [|el els Hel _ IH]; [done|].
  cbn [fmap list_fmap omap list_omap]. rewrite normalize_raw_of_element, IH.
  destruct (demo_event el) as [e|] eqn:He; [|done].
  cbn [fmap option_fmap option_map]. do 2 f_equal.
  assert (Hmsg : message e = str_or_empty (findtext el "Message")).
  { unfold demo_event in He. destruct (findtext el "Id") as [txt|]; [|done].
    cbn [mbind option_bind] in He. destruct (PyStr.int_of_str txt); [|done].
    cbn [mbind option_bind] in He. by injection He as <-. }
  destruct e as [t i l p m msg c]. unfold with_collapsed_message.
  cbn [time_created event_id level provider machine_name message category] in *.
  f_equal. apply collapse_no_LF. by rewrite Hmsg.
Qed.

(** X16: on a demo document whose messages have no line feed, the demo
    loader does what [collect_events] does on the same records with
    [important_only] and [hide_system_logons] off: it applies no ID filter
    and hides no system logon. *)
Theorem demo_is_unfiltered_collect (h live : Host) (path log_name : string)
    (max_events : Z) (elements : list Element) :
  parse_events h path = Ok elements →
  is_windows live = true →
  get_raw_events live log_name max_events = Ok (raw_of_element <$> elements) →
  Forall (λ el, PyStr.contains LF (str_or_empty (findtext el "Message")) = false)
         elements →
  load_events_from_demo_xml h path
  = collect_events live log_name max_events false None false.
Proof.
  intros Hparse Hwin Hraw Hplain.
  unfold load_events_from_demo_xml, collect_events.
  rewrite Hparse, Hwin, Hraw. cbn [negb mbind exc_bind].
  rewrite demo_loop_eq, collect_loop_eq. cbn [mbind exc_bind app].
  by rewrite (survivors_unfiltered None), normalized_of_elements.
Qed.
End Paths.

(** ** Failures and invariants of the two loaders *)

Section Loaders.
Context `{PyDatetime}.

(** One turn of the loop of [collect_events]: the record is normalized, and
    the event, if there is one and it is kept, is appended. *)
Lemma wide_collect_loop_cons (hide : bool) (ids_filter : option (gset Z))
    (raw : Wide.RawRecord) (rest : list Wide.RawRecord) (events : list SecurityEvent) :
  Wide.collect_loop hide ids_filter (raw :: rest) events
  = match Wide.normalize_event raw with
    | Raise e => Raise e
    | Ok None => Wide.collect_loop hide ids_filter rest events
    | Ok (Some ev) =>
        Wide.collect_loop hide ids_filter rest
          (events ++ (if kept hide ids_filter ev then [ev] else []))
    end.
Proof.
  cbn [Wide.collect_loop]. destruct (Wide.normalize_event raw) as [[ev|]|e];
    cbn [mbind exc_bind]; try done.
  unfold kept.
  destruct (hide && (event_id ev =? 4624)
            && PyStr.contains SYSTEM_LOGON_SIGNATURE (PyStr.lower (message ev)));
    cbn [negb andb]; [by rewrite app_nil_r|].
  destruct ids_filter as [ids|]; [|done].
  destruct (decide (event_id ev ∈ ids)) as [Hin|Hin].
  - rewrite (bool_decide_eq_false_2 (event_id ev ∉ ids)) by tauto.
    by rewrite (bool_decide_eq_true_2 _ Hin).
  - rewrite (bool_decide_eq_true_2 (event_id ev ∉ ids)) by done.
    by rewrite (bool_decide_eq_false_2 _ Hin), app_nil_r.
Qed.

(** When every record normalizes, the loop returns the kept events in
    retrieval order. *)
Lemma wide_collect_loop_Ok (hide : bool) (ids_filter : option (gset Z))
    (raw_events : list Wide.RawRecord) (events : list SecurityEvent) :
  Forall Wide.normalizes raw_events →
  Wide.collect_loop hide ids_filter raw_events events
  = Ok (events ++ Wide.survivors hide ids_filter raw_events).
Proof.
  unfold Wide.survivors, Wide.normalized_events.
  intros Hall. revert events. induction Hall as [|raw rest [r Hr] _ IH]; intros events.
  - cbn. by rewrite app_nil_r.
  - rewrite wide_collect_loop_cons. cbn [omap list_omap]. rewrite Hr.
    destruct r as [ev|]; [|apply IH].
    rewrite IH, filter_cons, <- app_assoc.
    destruct (kept hide ids_filter ev); [by rewrite decide_True|by rewrite decide_False].
Qed.




(** On records of the typed kind, the collection over any values is the
    collection above. *)
Lemma widen_survivors (hide : bool) (ids_filter : option (gset Z))
    (raw_events : list RawRecord) :
  Wide.survivors hide ids_filter (widen <$> raw_events)
  = survivors hide ids_filter raw_events.
Proof.
  unfold Wide.survivors, survivors, Wide.normalized_events, normalized_events. f_equal.
  induction raw_events as [|raw rest IH]; [done|].
  cbn [fmap list_fmap omap list_omap]. by rewrite widen_normalize_event, IH.
Qed.

Lemma widen_collect_events (h : Host) (log_name : string) (max_events : Z)
    (important_only : bool) (event_ids : option (list Z)) (hide : bool) :
  Wide.collect_events (widen_host h) log_name max_events important_only event_ids hide
  = collect_events h log_name max_events important_only event_ids hide.
Proof.
  unfold Wide.collect_events, collect_events, widen_host.
  cbn [Wide.is_windows Wide.get_raw_events].
  destruct (is_windows h); [|done]. cbn [negb].
  destruct (get_raw_events h log_name max_events) as [raws|e]; [|done].
  cbn [mbind exc_bind]. rewrite collect_loop_eq, wide_collect_loop_Ok.
  - by rewrite widen_survivors.
  - apply Forall_fmap, Forall_forall. intros raw _. apply widen_normalizes.
Qed.

(** X18: the demo loader runs on every platform and can fail in two ways
    only: the exception of the parser, passed on unchanged, and [TypeError]
    from the sort, when the events mix naive and aware time stamps. *)
Theorem load_events_from_demo_xml_failures (h : Host) (path : string) :
  (∀ e, parse_events h path = Raise e → load_events_from_demo_xml h path = Raise e)
  ∧ (∀ e, load_events_from_demo_xml h path = Raise e →
          parse_events h path = Raise e
          ∨ (e = TypeError
             ∧ ∃ elements, parse_events h path = Ok elements
                           ∧ ¬ one_kind (omap demo_event elements)))
  ∧ (∀ elements, parse_events h path = Ok elements →
       one_kind (omap demo_event elements) →
       ∃ evs, load_events_from_demo_xml h path = Ok evs
              ∧ length evs = length (omap demo_event elements)).
Proof.
  unfold load_events_from_demo_xml. split; [by intros e ->|]. split.
  - intros e. destruct (parse_events h path) as [els|e']; cbn [mbind exc_bind].
    2: { intros [= <-]. by left. }
    rewrite demo_loop_eq. cbn [mbind exc_bind app]. intros Hsort. right.
    assert (Hmixed : ¬ one_kind (omap demo_event els)).
    { intros Hkind. destruct (list_sort_reverse_returns time_created _ Hkind) as [r Hr].
      unfold one_kind in *. rewrite Hr in Hsort. discriminate. }
    split; [|by exists els].
    rewrite (list_sort_reverse_raises time_created _ Hmixed) in Hsort. by injection Hsort.
  - intros els -> Hkind. cbn [mbind exc_bind]. rewrite demo_loop_eq. cbn [mbind exc_bind app].
    destruct (list_sort_reverse_returns time_created _ Hkind) as [r Hr].
    exists r. split; [done|].
    by rewrite (list_sort_reverse_perm time_created _ _ Hr).
Qed.

Lemma normalized_category (raw_events : list RawRecord) (e : SecurityEvent) :
  e ∈ normalized_events raw_events → category e = categorize_event (event_id e).
Proof.
  intros (raw & _ & Hraw)%elem_of_normalized_events.
  rewrite normalize_event_eq in Hraw. destruct (py_int (Id raw)); [|done].
  by injection Hraw as <-.
Qed.

(** X19: every event [collect_events] returns carries the category of its
    id; with [important_only] and no explicit ids its id is one of the
    important event ids and its category is never "Other". *)
Theorem collect_events_categories (h : Host) (log_name : string) (max_events : Z)
    (important_only : bool) (event_ids : option (list Z)) (hide : bool)
    (evs : list SecurityEvent) (e : SecurityEvent) :
  collect_events h log_name max_events important_only event_ids hide = Ok evs →
  e ∈ evs →
  category e = categorize_event (event_id e)
  ∧ (important_only = true → ids_given event_ids = false →
     event_id e ∈ IMPORTANT_EVENT_IDS ∧ category e ≠ "Other").
Proof.
  intros (_ & raws & Hraws & Hsort)%collect_events_Ok He.
  rewrite (list_sort_reverse_perm _ _ _ Hsort) in He.
  apply elem_of_survivors in He as (Hnorm & _ & Hids).
  pose proof (normalized_category _ _ Hnorm) as Hcat. split; [done|].
  intros -> Hgiven. unfold passes_ids, ids_filter_of in Hids.
  rewrite Hgiven in Hids. cbn [andb] in Hids.
  specialize (Hids _ eq_refl). split; [done|].
  rewrite Hcat. unfold categorize_event. unfold IMPORTANT_EVENT_IDS in Hids.
  apply elem_of_dom in Hids as [rule Hrule]. rewrite Hrule.
  by eapply rules_never_other.
Qed.

(** X20: explicit ids count as a set: two lists with the same members,
    in whatever order and with whatever repeats, give the same outcome. *)
Theorem collect_events_ids_as_set (h : Host) (log_name : string) (max_events : Z)
    (important_only : bool) (ids ids' : list Z) (hide : bool) :
  (∀ x, x ∈ ids ↔ x ∈ ids') →
  collect_events h log_name max_events important_only (Some ids) hide
  = collect_events h log_name max_events important_only (Some ids') hide.
Proof.
  intros Hsame.
  assert (Hfilter : ids_filter_of important_only (Some ids)
                    = ids_filter_of important_only (Some ids')).
  { unfold ids_filter_of.
    assert (Hgiven : ids_given (Some ids) = ids_given (Some ids')).
    { destruct ids as [|x ids], ids' as [|y ids']; try done.
      - exfalso. apply (not_elem_of_nil y). apply Hsame. by left.
      - exfalso. apply (not_elem_of_nil x). apply Hsame. by left. }
    rewrite Hgiven. destruct (important_only && ids_given (Some ids')); [|done].
    f_equal. cbn [default]. apply set_eq. intros x. by rewrite !elem_of_list_to_set. }
  unfold collect_events. by rewrite Hfilter.
Qed.
End Loaders.

(** ** Worked examples for the further properties *)

(** The assertions of [test_level_filter.py]. *)
Example test_parse_levels_normalizes_input :
  parse_levels (Some "INFO, warning,ERROR") = Some {["info"; "warning"; "error"]}.
Proof. vm_compute. reflexivity. Qed.

Example test_normalize_level_name_variants :
  normalize_level_name "Information" = "info"
  ∧ normalize_level_name "WARN" = "warning"
  ∧ normalize_level_name "err" = "error"
  ∧ normalize_level_name "CRITICAL" = "critical".
Proof. repeat split; vm_compute; reflexivity. Qed.

Example test_filter_events_by_levels :
  filter_events_by_levels [ev_logon; ev_failure_warning; ev_service]
                          (Some {["warning"; "error"]})
  = [ev_failure_warning].
Proof. vm_compute. reflexivity. Qed.

(** The assertions of [test_presentation_colors.py]. *)
Example test_color_for_event :
  color_for_event ev_logon false = ""
  ∧ color_for_event ev_logon true = "bright_cyan"
  ∧ color_for_event ev_failure_warning true = "bright_yellow".
Proof. repeat split; vm_compute; reflexivity. Qed.

(** A token that names no level selects "info"; a text of separators
    selects nothing. *)
Example parse_levels_samples :
  parse_levels (Some "bogus") = Some {["info"]}
  ∧ parse_levels (Some " , ,") = None
  ∧ parse_levels (Some "") = None.
Proof. repeat split; vm_compute; reflexivity. Qed.

Example truncate_samples :
  truncate "Microsoft-Windows-Security-Auditing" 20 = "Microsoft-Windows..."
  ∧ truncate "Security" 20 = "Security"
  ∧ truncate "abcdef" 2 = "abcde..."
  ∧ truncate "abcdef" 0 = "abc...".
Proof. repeat split; vm_compute; reflexivity. Qed.

Example live_reader_sample :
  Live.get_raw_events
    (sample_win32 [Ok [record_failure; record_service]; Ok []; Ok [record_system_logon]])
    "Security" 500
  = Ok [Live.raw_of_record (sample_win32 []) record_failure;
        Live.raw_of_record (sample_win32 []) record_service].
Proof. vm_compute. reflexivity. Qed.

Lemma filter_events_by_levels_sorted_witness :
  sorted_descending
    (filter_events_by_levels [ev_failure_warning; ev_process; ev_logon] (Some {["info"]})).
Proof.
  apply filter_events_by_levels_sorted.
  repeat constructor.
Defined.

Lemma truncate_within_limit_witness :
  Z.of_nat (String.length (truncate "Microsoft-Windows-Security-Auditing" 20)) ≤ 20
  ∧ (Z.of_nat (String.length "Microsoft-Windows-Security-Auditing") ≤ 20 →
     truncate "Microsoft-Windows-Security-Auditing" 20
     = "Microsoft-Windows-Security-Auditing")
  ∧ (Z.of_nat (String.length "Microsoft-Windows-Security-Auditing") > 20 →
     truncate "Microsoft-Windows-Security-Auditing" 20
     = str_take (Z.to_nat (20 - 3)) "Microsoft-Windows-Security-Auditing" +:+ "..."
     ∧ Z.of_nat (String.length (truncate "Microsoft-Windows-Security-Auditing" 20)) = 20).
Proof. apply truncate_within_limit. lia. Defined.

Lemma truncate_small_limit_witness :
  truncate "abcdef" 2
  = str_take (Z.to_nat (Z.of_nat (String.length "abcdef") + 2 - 3)) "abcdef" +:+ "..."
  ∧ Z.of_nat (String.length (truncate "abcdef" 2)) > 2
  ∧ 3 ≤ Z.of_nat (String.length (truncate "abcdef" 2)).
Proof. apply truncate_small_limit; [lia|vm_compute; reflexivity]. Defined.

Lemma get_raw_events_at_most_max_witness :
  Z.of_nat (length [Live.raw_of_record (sample_win32 []) record_failure;
                    Live.raw_of_record (sample_win32 []) record_service])
  ≤ Z.max 0 2.
Proof.
  apply (get_raw_events_at_most_max
           (sample_win32 [Ok [record_failure; record_service; record_system_logon]])
           "Security" 2).
  vm_compute. reflexivity.
Defined.

Lemma get_raw_events_first_records_witness :
  let w := sample_win32 (Ok <$> [[record_failure; record_service]; []; [record_system_logon]]) in
  Live.get_raw_events w "Security" 5
  = Ok (Live.raw_of_record w
          <$> take (Z.to_nat 5)
                   (Live.reachable [[record_failure; record_service]; [];
                                    [record_system_logon]])).
Proof.
  apply (get_raw_events_first_records
           (sample_win32 (Ok <$> [[record_failure; record_service]; [];
                                  [record_system_logon]]))
           "Security" 5
           [[record_failure; record_service]; []; [record_system_logon]]);
    reflexivity.
Defined.

Lemma live_collect_count_witness :
  let w := sample_win32 [Ok [record_failure; record_service; record_system_logon]] in
  ∃ raw_events,
    Live.get_raw_events w "Security" 500 = Ok raw_events
    ∧ (length [ev_failure_warning; ev_service; ev_system_logon] ≤ length raw_events)%nat
    ∧ Z.of_nat (length [ev_failure_warning; ev_service; ev_system_logon]) ≤ Z.max 0 500
    ∧ (false = false → false = false →
       length [ev_failure_warning; ev_service; ev_system_logon] = length raw_events).
Proof.
  apply (live_collect_count
           (sample_win32 [Ok [record_failure; record_service; record_system_logon]])
           (λ _, Ok []) "Security" 500 false None false).
  vm_compute. reflexivity.
Defined.

Lemma demo_is_unfiltered_collect_witness :
  load_events_from_demo_xml (sample_host [] [demo_no_time; demo_logon]) "demo_incident.xml"
  = collect_events (sample_host (raw_of_element <$> [demo_no_time; demo_logon]) [])
                   "Security" 500 false None false.
Proof.
  apply (demo_is_unfiltered_collect
           (sample_host [] [demo_no_time; demo_logon])
           (sample_host (raw_of_element <$> [demo_no_time; demo_logon]) [])
           "demo_incident.xml" "Security" 500 [demo_no_time; demo_logon]).
  - reflexivity.
  - reflexivity.
  - reflexivity.
  - repeat constructor.
Defined.

(** The demo loader keeps the logon of Local System that [collect_events]
    hides on request, and an event whose id has no rule. *)
Example demo_loader_keeps_all :
  ∃ e1 e2,
    load_events_from_demo_xml (sample_host [] [demo_no_time; demo_logon]) "demo_incident.xml"
    = Ok [e1; e2]
    ∧ event_id e1 = 4624 ∧ message e1 = "S-1-5-18 SYSTEM NT AUTHORITY"
    ∧ event_id e2 = 4688 ∧ time_created e2 = fromtimestamp0.
Proof. do 2 eexists. split; [vm_compute; reflexivity|]. repeat split. Qed.

Lemma collect_events_categories_witness :
  category ev_logon = categorize_event (event_id ev_logon)
  ∧ (true = true → ids_given None = false →
     event_id ev_logon ∈ IMPORTANT_EVENT_IDS ∧ category ev_logon ≠ "Other").
Proof.
  apply (collect_events_categories (sample_host [raw_logon; raw_failure] [])
                                   "Security" 500 true None false
                                   [ev_failure; ev_logon] ev_logon).
  - vm_compute. reflexivity.
  - apply list_elem_of_In. right. left. reflexivity.
Defined.

Lemma collect_events_ids_as_set_witness :
  collect_events (sample_host [raw_logon; raw_failure; raw_process] []) "Security" 500
                 true (Some [4625; 4624; 4625]) false
  = collect_events (sample_host [raw_logon; raw_failure; raw_process] []) "Security" 500
                   true (Some [4624; 4625]) false.
Proof.
  apply collect_events_ids_as_set.
  intros x. rewrite !elem_of_cons, elem_of_nil. tauto.
Defined.

Lemma normalize_event_message_witness :
  message ev_one_line = collapse_newlines (str_or_empty (Message raw_two_lines))
  ∧ PyStr.contains LF (message ev_one_line) = false.
Proof.
  apply (normalize_event_message raw_two_lines ev_one_line).
  vm_compute. reflexivity.
Defined.

(** Records with values of other types: a float id is cut to an integer, a
    dict gives its "DateTime" text, and one record that [normalize_event]
    does not survive ends the collection. *)
Example wide_records_normalize :
  Wide.normalize_event wide_logon = Ok (Some ev_logon)
  ∧ Wide.normalize_event wide_failure = Ok (Some ev_failure)
  ∧ Wide.normalize_event (wide_event (OFloat FNan) ONone None) = Ok None
  ∧ Wide.normalize_event (wide_event (OList []) ONone None) = Ok None
  ∧ Wide.normalize_event (wide_event (OFloat (FInf true)) ONone None) = Raise OverflowError
  ∧ Wide.normalize_event (wide_event (OInt 4624) (ODict [("DateTime", OList [OInt 1])]) None)
    = Raise AttributeError.
Proof. repeat split; vm_compute; reflexivity. Qed.

Example wide_collect_events :
  Wide.collect_events (wide_host [wide_logon; wide_failure]) "Security" 500 false None false
  = Ok [ev_failure; ev_logon]
  ∧ Wide.collect_events (wide_host [wide_logon; raw_infinite_id; wide_failure])
                        "Security" 500 false None false
    = Raise OverflowError
  ∧ Wide.collect_events (wide_host [wide_logon; wide_failure; raw_numeric_datetime])
                        "Security" 500 false None false
    = Raise AttributeError.
Proof. repeat split; vm_compute; reflexivity. Qed.
